(** * TaxPay backend: a shallow embedding of [main.py] and [database.py]

    The service authenticates users with bearer tokens and keeps three
    collections of documents (users, allocations, receipts) in a document
    store.  The handlers of [main.py] are embedded as computations in a
    small state-and-exception monad over the store; the libraries they
    call into (passlib's bcrypt handler, PyJWT's signing and checking, the
    payment gateway client) are fields of an environment record, so every
    theorem holds for whatever these libraries compute. *)

From Stdlib Require Import ZArith NArith String Ascii List Bool Lia.
From Stdlib Require Import DecimalString.
From Stdlib Require Import Floats.SpecFloat.
From stdpp Require Import base option list gmap strings.

Local Open Scope string_scope.

(** ** Python strings

    A [string] is the sequence of code points of a Python [str] whose
    code points are below 256.  That is what the handlers see in a header
    value (the framework decodes header bytes as latin-1); the other
    strings of the service (emails, names, tokens) are only compared and
    copied. *)

Module Py.

(** [str.isspace] on one code point below 256: the ASCII controls
    U+0009..U+000D and U+001C..U+001F, the space, NEL and the no-break
    space. *)
Definition isspace (c : ascii) : bool :=
  let n := N_of_ascii c in
  (((9 <=? n) && (n <=? 13)) || ((28 <=? n) && (n <=? 32))
   || (n =? 133) || (n =? 160))%N.

(** [str.lower] on one code point below 256: A..Z and the latin-1 capitals
    U+00C0..U+00DE (the multiplication sign U+00D7 apart) move up by 32. *)
Definition lower_char (c : ascii) : ascii :=
  let n := N_of_ascii c in
  if (((65 <=? n) && (n <=? 90))
      || ((192 <=? n) && (n <=? 222) && negb (n =? 215)))%N
  then ascii_of_N (n + 32) else c.

Fixpoint lower (s : string) : string :=
  match s with
  | EmptyString => EmptyString
  | String c r => String (lower_char c) (lower r)
  end.

(** [s.startswith(p)] *)
Fixpoint startswith (s p : string) {struct p} : bool :=
  match p with
  | EmptyString => true
  | String c p' =>
      match s with
      | EmptyString => false
      | String d s' => Ascii.eqb d c && startswith s' p'
      end
  end.

(** [s.split()] with no separator: the maximal runs of characters that are
    not white space, in order.  [cur] is the run being scanned. *)
Fixpoint split_from (cur : string) (s : string) : list string :=
  match s with
  | EmptyString => match cur with EmptyString => [] | _ => [cur] end
  | String c r =>
      if isspace c
      then match cur with
           | EmptyString => split_from EmptyString r
           | _ => cur :: split_from EmptyString r
           end
      else split_from (cur +:+ String c EmptyString) r
  end.

Definition split (s : string) : list string := split_from EmptyString s.

(** A word: a string that is not empty and holds no white space, as a
    token does. *)
Definition no_space (s : string) : bool :=
  forallb (fun c => negb (isspace c)) (list_ascii_of_string s).

Definition is_word (s : string) : bool :=
  match s with EmptyString => false | _ => no_space s end.

(** A string that holds the character U+0000. *)
Definition has_nul (s : string) : bool :=
  existsb (Ascii.eqb "000"%char) (list_ascii_of_string s).

(** Truth value of a [str] and of an optional [str] ([None] and the empty
    string are false). *)
Definition truthy_str (s : string) : bool :=
  match s with EmptyString => false | _ => true end.

Definition truthy_opt_str (o : option string) : bool :=
  match o with None => false | Some s => truthy_str s end.

(** [str(n)] for an [int]. *)
Definition str_int (n : Z) : string := NilZero.string_of_int (Z.to_int n).

Definition isdigit (c : ascii) : bool :=
  let n := N_of_ascii c in ((48 <=? n) && (n <=? 57))%N.

Fixpoint all_digits (s : string) : bool :=
  match s with
  | EmptyString => true
  | String c r => isdigit c && all_digits r
  end.

(** What [time.time()] returns: the seconds since the epoch, a finite
    float that is not negative, [mantissa * 2 ^ exponent]. *)
Record epoch_seconds : Type := EpochSeconds {
  mantissa : N;
  exponent : Z
}.

Definition to_float (t : epoch_seconds) : spec_float :=
  match mantissa t with
  | N0 => S754_zero false
  | Npos m => S754_finite false m (exponent t)
  end.

(** [int(f)] for a [float]: truncation toward zero; infinities and NaN
    raise (reported as [None] here, the caller names the exception). *)
Definition int_of_float (f : spec_float) : option Z :=
  match f with
  | S754_zero _ => Some 0%Z
  | S754_finite s m e =>
      let a := (if 0 <=? e then Z.pos m * 2 ^ e
                else Z.pos m / 2 ^ (- e))%Z in
      Some (if s then (- a)%Z else a)
  | S754_infinity _ => None
  | S754_nan => None
  end.

End Py.

(** ** Values, documents and exceptions *)

(** A Python [float] is carried as its IEEE value; the service never
    computes with the percentages it stores. *)
Abbreviation float := spec_float.

#[global] Instance float_eq_dec : EqDecision float.
Proof. solve_decision. Defined.

(** The values a document field or a token claim holds.  [VDatetime] is a
    naive UTC [datetime], in microseconds since the epoch. *)
Inductive value : Type :=
  | VNone
  | VInt (n : Z)
  | VFloat (f : float)
  | VStr (s : string)
  | VDict (m : gmap string float)
  | VDatetime (us : Z).

#[global] Instance value_eq_dec : EqDecision value.
Proof. solve_decision. Defined.

(** A Python [dict] with string keys. *)
Abbreviation pydict := (gmap string value).

(** Truth value of a Python object ([not v] is its negation). *)
Definition truthy (v : value) : bool :=
  match v with
  | VNone => false
  | VInt n => negb (n =? 0)%Z
  | VFloat f => match f with S754_zero _ => false | _ => true end
  | VStr s => Py.truthy_str s
  | VDict m => negb (bool_decide (m = ∅))
  | VDatetime _ => true
  end.

(** A stored document: the fields that were inserted and the [_id] the
    store gave it. *)
Record document : Type := Document {
  doc_id : N;
  doc_fields : pydict
}.

(** [str(ObjectId)]: 24 hexadecimal digits. *)
Definition hex_digit (n : N) : ascii :=
  ascii_of_N (if (n <? 10)%N then 48 + n else 87 + n)%N.

Fixpoint hex_from (k : nat) (n : N) (acc : string) : string :=
  match k with
  | O => acc
  | S k' => hex_from k' (n / 16)%N (String (hex_digit (n mod 16)%N) acc)
  end.

Definition str_oid (n : N) : string := hex_from 24 n EmptyString.

(** The exceptions that can leave a handler. *)
Inductive exn : Type :=
  | HTTPException (status_code : Z) (detail : string)
  | IndexError
  | KeyError (key : string)
  | TypeError
  | ValueError
  | OverflowError
  | InvalidDocument
  | ValidationError
  | UnknownHashError
  | ExpiredSignatureError
  | InvalidTokenError
  | ImportError
  | GatewayError (msg : string).

Inductive outcome (A : Type) : Type :=
  | Ret (a : A)
  | Raise (e : exn).
Arguments Ret {A} a.
Arguments Raise {A} e.

(** The failure kinds of the service, as the handlers raise them. *)
Definition MissingCredential : exn := HTTPException 401 "Missing token".
Definition ExpiredToken : exn := HTTPException 401 "Token expired".
Definition InvalidToken : exn := HTTPException 401 "Invalid token".
Definition MalformedClaims : exn := HTTPException 401 "Invalid token payload".
Definition UnknownSubject : exn := HTTPException 401 "User not found".
Definition DuplicateEmail : exn := HTTPException 400 "Email already registered".
Definition InvalidCredentials : exn := HTTPException 401 "Invalid credentials".
Definition GatewayNotConfigured : exn :=
  HTTPException 400 "Razorpay keys not configured".

(** ** The world and the environment

    The world is what a handler can change: the collections of the store,
    the next [_id] the store hands out, and how many times the clock and
    the random source were read.  Requests are taken one at a time; the
    interleaving of concurrent requests is not part of this model. *)
Record world : Type := World {
  db : gmap string (list document);
  next_id : N;
  ticks : nat;
  draws : nat
}.

Definition empty_world : world :=
  {| db := ∅; next_id := 0; ticks := 0; draws := 0 |}.

(** The request body of a gateway order, as [create_razorpay_order] builds
    it. *)
Record order_request : Type := OrderRequest {
  order_amount : Z;
  order_currency : string;
  order_receipt : string;
  order_notes : pydict
}.

(** The environment is what a handler can only read or call: the process
    environment, the readings of the clock, the salts, and the libraries.
    [time_time k] is what the [k]-th reading of [time.time()] returns and
    [utcnow k] what the [k]-th reading returns as a [datetime];
    [razorpay_import_error] is the message of the exception that
    [import razorpay] raises, if it raises; [other_match] is how the store
    decides whether a document answers a filter in which some value is
    not a string (a null, a number, an operator document). *)
Record env : Type := Env {
  environ : gmap string string;
  time_time : nat -> Py.epoch_seconds;
  utcnow : nat -> Z;
  salts : nat -> string;
  bcrypt_hash : string -> string -> outcome string;
  bcrypt_verify : string -> string -> outcome bool;
  jwt_encode : pydict -> string -> outcome string;
  jwt_decode : string -> string -> Z -> outcome pydict;
  razorpay_import_error : option string;
  razorpay_order_create : string -> string -> order_request -> outcome pydict;
  other_match : list (string * value) -> document -> bool
}.

(** ** The monad of handlers: state passing with exceptions.  The world
    reached before an exception is kept, as a store write before a
    [raise] is. *)
Definition M (A : Type) : Type := world -> outcome A * world.

Definition ret {A} (a : A) : M A := fun w => (Ret a, w).

Definition raise {A} (e : exn) : M A := fun w => (Raise e, w).

Definition bind {A B} (m : M A) (k : A -> M B) : M B :=
  fun w =>
    match m w with
    | (Ret a, w') => k a w'
    | (Raise e, w') => (Raise e, w')
    end.

Definition lift {A} (o : outcome A) : M A := fun w => (o, w).

Notation "x <- m ;; k" := (bind m (fun x => k))
  (at level 100, m at next level, right associativity).
Notation "m ;;; k" := (bind m (fun _ => k))
  (at level 100, right associativity).

(** [l[i]] on a list. *)
Definition index {A} (l : list A) (i : nat) : outcome A :=
  match l !! i with
  | Some x => Ret x
  | None => Raise IndexError
  end.

(** [d[k]] on a dict. *)
Definition getitem (d : pydict) (k : string) : outcome value :=
  match d !! k with
  | Some v => Ret v
  | None => Raise (KeyError k)
  end.

(** [d.get(k, dflt)] and [d.get(k)] *)
Definition get_default (d : pydict) (k : string) (dflt : value) : value :=
  default dflt (d !! k).

Definition get (d : pydict) (k : string) : value := get_default d k VNone.

(** One reading of [time.time()]. *)
Definition read_time (E : env) : M float :=
  fun w => (Ret (Py.to_float (time_time E (ticks w))),
            {| db := db w; next_id := next_id w;
               ticks := S (ticks w); draws := draws w |}).

(** One reading of the clock as a [datetime]. *)
Definition read_utcnow (E : env) : M Z :=
  fun w => (Ret (utcnow E (ticks w)),
            {| db := db w; next_id := next_id w;
               ticks := S (ticks w); draws := draws w |}).

(** One salt from the random source. *)
Definition draw_salt (E : env) : M string :=
  fun w => (Ret (salts E (draws w)),
            {| db := db w; next_id := next_id w;
               ticks := ticks w; draws := S (draws w) |}).

(** ** The store: [database.py]

    A collection is the list of its documents in the order they were
    inserted.  [insert_one] appends, unless the document cannot be
    encoded; [find] walks the collection in that order (the store's
    natural order: the service never deletes or rewrites a document) and
    keeps the documents that answer the filter.  Failures of the
    connection are not modelled. *)
Module Store.

Definition collection (w : world) (name : string) : list document :=
  default [] (db w !! name).

(** A key of a filter that names a field of the document: not an
    operator ([$or]), not a path into an embedded document ([a.b]), not
    the id.  A filter is a dict, so its keys are distinct. *)
Definition plain_key (k : string) : bool :=
  negb (Py.startswith k "$")
  && negb (existsb (Ascii.eqb "."%char) (list_ascii_of_string k))
  && negb (String.eqb k "_id").

Definition plain_filter (flt : list (string * string)) : bool :=
  forallb (fun kv => plain_key kv.1) flt && bool_decide (NoDup flt.*1).

(** A filter with such keys whose values are strings is answered by the
    documents in which every field of the filter is present and holds
    that string.  All the filters of the service are of this kind, the
    one of [get_current_user] apart. *)
Definition matches (flt : list (string * string)) (d : document) : bool :=
  forallb (fun kv => bool_decide (doc_fields d !! kv.1 = Some (VStr kv.2))) flt.

(** [cursor.limit(n)]: the first [n] documents; [limit(0)] is no limit. *)
Definition limit_to {A} (n : nat) (l : list A) : list A :=
  match n with O => l | _ => take n l end.

Definition find (w : world) (name : string) (flt : list (string * string))
  : list document :=
  List.filter (matches flt) (collection w name).

(** A filter in which some value is not a string, or some key is not
    plain, is answered as the store decides, document by document. *)
Fixpoint string_filter (flt : list (string * value))
  : option (list (string * string)) :=
  match flt with
  | [] => Some []
  | (k, VStr s) :: rest =>
      match string_filter rest with
      | Some r => if plain_key k then Some ((k, s) :: r) else None
      | None => None
      end
  | _ :: _ => None
  end.

Definition find_any (E : env) (w : world) (name : string)
  (flt : list (string * value)) : list document :=
  match string_filter flt with
  | Some strings => find w name strings
  | None => List.filter (other_match E flt) (collection w name)
  end.

(** What the encoding of a document to BSON rejects: an integer outside
    64 bits ([OverflowError]) and a key that holds U+0000, in the document
    or in a dict inside it ([InvalidDocument]).  The items are encoded in
    the order of the dict and the first that is rejected decides the
    exception; in the documents of this service the keys of the document
    itself are literals and its only integer comes before its only dict,
    so the integer is looked at first. *)
Definition int_fits (v : value) : bool :=
  match v with
  | VInt n => ((- 2 ^ 63 <=? n) && (n <? 2 ^ 63))%Z
  | _ => true
  end.

Definition keys_fit (k : string) (v : value) : bool :=
  negb (Py.has_nul k)
  && match v with
     | VDict m =>
         bool_decide (map_Forall (fun k' _ => Py.has_nul k' = false) m)
     | _ => true
     end.

Definition bson_error (fields : pydict) : option exn :=
  if bool_decide (map_Forall (fun _ v => int_fits v = true) fields)
  then if bool_decide (map_Forall (fun k v => keys_fit k v = true) fields)
       then None
       else Some InvalidDocument
  else Some OverflowError.

(** [insert_one]: the document is encoded, given the next [_id] (the
    documents of the service bring none) and put last in its
    collection. *)
Definition insert_one (name : string) (fields : pydict) : M N :=
  fun w =>
    match bson_error fields with
    | Some e => (Raise e, w)
    | None =>
        let d := {| doc_id := next_id w; doc_fields := fields |} in
        (Ret (next_id w),
         {| db := <[name := (collection w name ++ [d])%list]> (db w);
            next_id := N.succ (next_id w);
            ticks := ticks w; draws := draws w |})
    end.

(** [create_document]: the fields and the two time stamps, inserted as a
    new document; returns the new [_id] as a string. *)
Definition create_document (E : env) (collection_name : string)
  (data : pydict) : M string :=
  now <- read_time E ;;
  let doc := <["updated_at" := VFloat now]>
               (<["created_at" := VFloat now]> data) in
  inserted_id <- insert_one collection_name doc ;;
  ret (str_oid inserted_id).

(** [get_documents]: a read, the world is left as it is.  The first form
    is for a filter of strings, the second for any filter. *)
Definition get_documents (collection_name : string)
  (filter_dict : list (string * string)) (limit : nat) : M (list document) :=
  fun w => (Ret (limit_to limit (find w collection_name filter_dict)), w).

Definition get_documents_any (E : env) (collection_name : string)
  (filter_dict : list (string * value)) (limit : nat) : M (list document) :=
  fun w => (Ret (limit_to limit (find_any E w collection_name filter_dict)), w).

End Store.

(** ** The request and response shapes: [schemas.py]

    The handlers receive request bodies that the schema layer has already
    accepted.  Where a handler builds a response from stored fields, a
    field of another type than the declared one is reported as
    [ValidationError]; the conversions the schema layer would try first
    are not modelled (the documents this service writes never need
    them). *)
Module Schemas.

Record UserRegister : Type := {
  reg_email : string; reg_password : string;
  reg_name : string; reg_pan : string
}.

Record UserLogin : Type := { login_email : string; login_password : string }.

Record User : Type := {
  user_id : option string; user_email : string;
  user_name : string; user_pan : string
}.

Record SaveAllocationRequest : Type := { save_sectors : gmap string float }.

Record Receipt : Type := {
  receipt_id : option string;
  receipt_user_email : string;
  receipt_amount : Z;
  receipt_currency : string;
  receipt_regime : string;
  receipt_allocation : gmap string float;
  receipt_payment_method : string;
  receipt_reference : option string
}.

Record DemoPayRequest : Type := {
  pay_amount : Z; pay_regime : string; pay_allocation : gmap string float
}.

Record RazorpayOrderRequest : Type := {
  rzp_amount : Z; rzp_currency : string;
  rzp_receipt : option string; rzp_notes : option pydict
}.

Record RazorpayOrderResponse : Type := {
  rzp_order_id : string; rzp_order_amount : Z;
  rzp_order_currency : string; rzp_order_status : string
}.

Record TokenResponse : Type := { access_token : string; token_type : string }.

Record Message : Type := { message : string }.

Record ReceiptsResponse : Type := { items : list Receipt }.

Definition as_str (v : value) : outcome string :=
  match v with VStr s => Ret s | _ => Raise ValidationError end.

Definition as_opt_str (v : value) : outcome (option string) :=
  match v with
  | VNone => Ret None
  | VStr s => Ret (Some s)
  | _ => Raise ValidationError
  end.

Definition as_int (v : value) : outcome Z :=
  match v with VInt n => Ret n | _ => Raise ValidationError end.

Definition as_float_dict (v : value) : outcome (gmap string float) :=
  match v with VDict m => Ret m | _ => Raise ValidationError end.

Definition obind {A B} (o : outcome A) (k : A -> outcome B) : outcome B :=
  match o with Ret a => k a | Raise e => Raise e end.

(** [User(id=..., email=..., name=..., pan=...)] *)
Definition make_User (id email name pan : value) : outcome User :=
  obind (as_opt_str id) (fun i =>
  obind (as_str email) (fun e =>
  obind (as_str name) (fun n =>
  obind (as_str pan) (fun p =>
  Ret {| user_id := i; user_email := e; user_name := n; user_pan := p |})))).

(** [Receipt(id=..., user_email=..., ...)] *)
Definition make_Receipt
  (id user_email amount currency regime allocation payment_method reference
   : value) : outcome Receipt :=
  obind (as_opt_str id) (fun i =>
  obind (as_str user_email) (fun u =>
  obind (as_int amount) (fun a =>
  obind (as_str currency) (fun c =>
  obind (as_str regime) (fun g =>
  obind (as_float_dict allocation) (fun al =>
  obind (as_str payment_method) (fun pm =>
  obind (as_opt_str reference) (fun rf =>
  Ret {| receipt_id := i; receipt_user_email := u; receipt_amount := a;
         receipt_currency := c; receipt_regime := g;
         receipt_allocation := al; receipt_payment_method := pm;
         receipt_reference := rf |})))))))).

(** [RazorpayOrderResponse(id=..., amount=..., currency=..., status=...)] *)
Definition make_RazorpayOrderResponse (id amount currency status : value)
  : outcome RazorpayOrderResponse :=
  obind (as_str id) (fun i =>
  obind (as_int amount) (fun a =>
  obind (as_str currency) (fun c =>
  obind (as_str status) (fun s =>
  Ret {| rzp_order_id := i; rzp_order_amount := a;
         rzp_order_currency := c; rzp_order_status := s |})))).

End Schemas.
Import Schemas.

(** ** The handlers: [main.py] *)

(** [JWT_SECRET = os.environ.get("JWT_SECRET", "dev-secret-change")] *)
Definition JWT_SECRET (E : env) : string :=
  default "dev-secret-change" (environ E !! "JWT_SECRET").

(** *** The password context, [CryptContext(schemes=["bcrypt"])]

    The context recognises a hash by the identifier it starts with and
    hands it to the bcrypt handler; a hash that no scheme of the context
    recognises makes [verify] raise. *)
Definition bcrypt_idents : list string := ["$2$"; "$2a$"; "$2x$"; "$2y$"; "$2b$"].

Definition bcrypt_identify (hash : string) : bool :=
  existsb (Py.startswith hash) bcrypt_idents.

Definition pwd_context_hash (E : env) (secret : string) : M string :=
  salt <- draw_salt E ;;
  lift (bcrypt_hash E secret salt).

Definition pwd_context_verify (E : env) (secret hash : string) : outcome bool :=
  if bcrypt_identify hash then bcrypt_verify E secret hash
  else Raise UnknownHashError.

Definition hash_password (E : env) (password : string) : M string :=
  pwd_context_hash E password.

Definition verify_password (E : env) (password hashed : string) : outcome bool :=
  pwd_context_verify E password hashed.

(** *** Dates: [datetime] and [timedelta] in microseconds *)
Definition datetime_min : Z := -62135596800000000.
Definition datetime_max : Z := 253402300799999999.
Definition us_per_minute : Z := 60000000.
Definition us_per_hour : Z := 60 * us_per_minute.
Definition us_per_day : Z := 24 * us_per_hour.

(** [timedelta(minutes=m)]: out of range beyond 999999999 days. *)
Definition timedelta_minutes (m : Z) : outcome Z :=
  let us := (m * us_per_minute)%Z in
  let days := (us / us_per_day)%Z in
  if ((-999999999 <=? days) && (days <=? 999999999))%Z then Ret us
  else Raise OverflowError.

(** [d + td]: out of range outside the years 1..9999. *)
Definition datetime_add (d td : Z) : outcome Z :=
  let r := (d + td)%Z in
  if ((datetime_min <=? r) && (r <=? datetime_max))%Z then Ret r
  else Raise OverflowError.

(** *** Tokens *)

Definition create_token (E : env) (data : pydict) (expires_minutes : option Z)
  : M string :=
  let expires_minutes := default (60 * 24)%Z expires_minutes in
  let to_encode := data in
  now <- read_utcnow E ;;
  delta <- lift (timedelta_minutes expires_minutes) ;;
  expire <- lift (datetime_add now delta) ;;
  let to_encode := <["exp" := VDatetime expire]> to_encode in
  lift (jwt_encode E to_encode (JWT_SECRET E)).

(** [jwt.decode] compares the expiry with one reading of the clock. *)
Definition decode_token (E : env) (token : string) : M pydict :=
  now <- read_utcnow E ;;
  match jwt_decode E token (JWT_SECRET E) now with
  | Ret payload => ret payload
  | Raise ExpiredSignatureError => raise ExpiredToken
  | Raise InvalidTokenError => raise InvalidToken
  | Raise e => raise e
  end.

(** *** The authentication gate *)

(** The guard of [get_current_user], negated: the header is present, not
    empty, and its lower-cased text starts with the scheme marker. *)
Definition has_bearer_scheme (authorization : option string) : bool :=
  match authorization with
  | None => false
  | Some a => Py.truthy_str a && Py.startswith (Py.lower a) "bearer "
  end.

(** [authorization.split()[1]] *)
Definition bearer_token (authorization : string) : outcome string :=
  index (Py.split authorization) 1.

Definition user_of_document (u : document) : outcome User :=
  obind (getitem (doc_fields u) "email") (fun email =>
  obind (getitem (doc_fields u) "name") (fun name =>
  obind (getitem (doc_fields u) "pan") (fun pan =>
  make_User (VStr (str_oid (doc_id u))) email name pan))).

Definition get_current_user (E : env) (authorization : option string) : M User :=
  if negb (has_bearer_scheme authorization) then raise MissingCredential
  else
    token <- lift (bearer_token (default "" authorization)) ;;
    payload <- decode_token E token ;;
    let email := get payload "sub" in
    if negb (truthy email) then raise MalformedClaims
    else
      users <- Store.get_documents_any E "user" [("email", email)] 1 ;;
      match users with
      | [] => raise UnknownSubject
      | u :: _ => lift (user_of_document u)
      end.

(** *** Registration and login *)

Definition register (E : env) (payload : UserRegister) : M Message :=
  existing <- Store.get_documents "user" [("email", reg_email payload)] 1 ;;
  match existing with
  | _ :: _ => raise DuplicateEmail
  | [] =>
      password_hash <- hash_password E (reg_password payload) ;;
      let user_doc : pydict :=
        <["pan" := VStr (reg_pan payload)]>
          (<["name" := VStr (reg_name payload)]>
             (<["password_hash" := VStr password_hash]>
                (<["email" := VStr (reg_email payload)]> ∅))) in
      Store.create_document E "user" user_doc ;;;
      ret {| message := "Registered successfully" |}
  end.

(** [verify_password(payload.password, user.get("password_hash", ""))]: the
    context answers [False] to a hash that is [None] and rejects a hash that
    is not a string. *)
Definition verify_stored (E : env) (password : string) (hashed : value)
  : outcome bool :=
  match hashed with
  | VStr h => verify_password E password h
  | VNone => Ret false
  | _ => Raise TypeError
  end.

Definition login (E : env) (payload : UserLogin) : M TokenResponse :=
  users <- Store.get_documents "user" [("email", login_email payload)] 1 ;;
  match users with
  | [] => raise InvalidCredentials
  | user :: _ =>
      ok <- lift (verify_stored E (login_password payload)
                    (get_default (doc_fields user) "password_hash" (VStr ""))) ;;
      if negb ok then raise InvalidCredentials
      else
        email <- lift (getitem (doc_fields user) "email") ;;
        token <- create_token E (<["sub" := email]> ∅) None ;;
        ret {| access_token := token; token_type := "bearer" |}
  end.

Definition me (user : User) : M User := ret user.

(** *** Allocations *)

Definition get_allocation (user : User) : M pydict :=
  docs <- Store.get_documents "allocation"
            [("user_email", user_email user)] 1 ;;
  match docs with
  | [] => ret (<["sectors" := VDict ∅]> ∅)
  | d :: _ =>
      ret (<["sectors" := get_default (doc_fields d) "sectors" (VDict ∅)]> ∅)
  end.

Definition save_allocation (E : env) (payload : SaveAllocationRequest)
  (user : User) : M Message :=
  existing <- Store.get_documents "allocation"
                [("user_email", user_email user)] 1 ;;
  let doc : pydict :=
    <["sectors" := VDict (save_sectors payload)]>
      (<["user_email" := VStr (user_email user)]> ∅) in
  match existing with
  | _ :: _ => Store.create_document E "allocation" doc
  | [] => Store.create_document E "allocation" doc
  end ;;;
  ret {| message := "Allocation saved" |}.

(** *** Receipts *)

Definition receipt_of_document (r : document) : outcome Receipt :=
  obind (getitem (doc_fields r) "user_email") (fun user_email =>
  obind (getitem (doc_fields r) "amount") (fun amount =>
  make_Receipt
    (VStr (str_oid (doc_id r)))
    user_email
    amount
    (get_default (doc_fields r) "currency" (VStr "INR"))
    (get_default (doc_fields r) "regime" (VStr "new"))
    (get_default (doc_fields r) "allocation" (VDict ∅))
    (get_default (doc_fields r) "payment_method" (VStr "demo"))
    (get (doc_fields r) "reference"))).

(** The loop of [list_receipts]: one receipt appended per document. *)
Fixpoint list_receipts_loop (docs : list document) (items : list Receipt)
  : outcome (list Receipt) :=
  match docs with
  | [] => Ret items
  | r :: rest =>
      match receipt_of_document r with
      | Ret item => list_receipts_loop rest (items ++ [item])%list
      | Raise e => Raise e
      end
  end.

Definition list_receipts (user : User) : M ReceiptsResponse :=
  docs <- Store.get_documents "receipt"
            [("user_email", user_email user)] 100 ;;
  items <- lift (list_receipts_loop docs []) ;;
  ret {| items := items |}.

(** [int(time.time())] *)
Definition int_time (E : env) : M Z :=
  t <- read_time E ;;
  match Py.int_of_float t, t with
  | Some n, _ => ret n
  | None, S754_nan => raise ValueError
  | None, _ => raise OverflowError
  end.

Definition pay_demo (E : env) (payload : DemoPayRequest) (user : User)
  : M Receipt :=
  seconds <- int_time E ;;
  let rec : pydict :=
    <["reference" := VStr ("DEMO-" +:+ Py.str_int seconds)]>
      (<["payment_method" := VStr "demo"]>
         (<["allocation" := VDict (pay_allocation payload)]>
            (<["regime" := VStr (pay_regime payload)]>
               (<["currency" := VStr "INR"]>
                  (<["amount" := VInt (pay_amount payload)]>
                     (<["user_email" := VStr (user_email user)]> ∅)))))) in
  Store.create_document E "receipt" rec ;;;
  lift (make_Receipt
          (get rec "id") (get rec "user_email") (get rec "amount")
          (get rec "currency") (get rec "regime") (get rec "allocation")
          (get rec "payment_method") (get rec "reference")).

(** *** The gateway order *)

Definition create_razorpay_order (E : env) (payload : RazorpayOrderRequest)
  (user : User) : M RazorpayOrderResponse :=
  let key_id := environ E !! "RAZORPAY_KEY_ID" in
  let key_secret := environ E !! "RAZORPAY_KEY_SECRET" in
  if negb (Py.truthy_opt_str key_id) || negb (Py.truthy_opt_str key_secret)
  then raise GatewayNotConfigured
  else
    match razorpay_import_error E with
    | Some e => raise (HTTPException 500 ("Razorpay import failed: " +:+ e))
    | None =>
        receipt <- (if Py.truthy_opt_str (rzp_receipt payload)
                    then ret (default "" (rzp_receipt payload))
                    else (seconds <- int_time E ;;
                          ret ("rcpt_" +:+ Py.str_int seconds))) ;;
        order <- lift (razorpay_order_create E
                         (default "" key_id) (default "" key_secret)
                         {| order_amount := rzp_amount payload;
                            order_currency := rzp_currency payload;
                            order_receipt := receipt;
                            order_notes := default ∅ (rzp_notes payload) |}) ;;
        id <- lift (getitem order "id") ;;
        amount <- lift (getitem order "amount") ;;
        currency <- lift (getitem order "currency") ;;
        lift (make_RazorpayOrderResponse id amount currency
                (get_default order "status" (VStr "created")))
    end.

(** The floats [100.0] and [25.0]. *)
Definition float_100 : float := S754_finite false 7036874417766400 (-46).
Definition float_25 : float := S754_finite false 7036874417766400 (-48).

(** ** A sample environment

    A small instance of the environment, for running the handlers on
    concrete requests: the clock starts at 1700000000 seconds and gains a
    second per reading, and the libraries are replaced by transparent
    stand-ins (a "hash" that shows the password, a "token" that shows the
    subject).  No theorem below depends on these stand-ins except through
    the examples that run on them. *)
Module Sample.

Definition E : env := {|
  environ := ∅;
  time_time := fun k => Py.EpochSeconds (1700000000 + N.of_nat k) 0;
  utcnow := fun k => (1700000000000000 + 1000000 * Z.of_nat k)%Z;
  salts := fun _ => "c2FsdA";
  bcrypt_hash := fun secret salt => Ret ("$2b$12$" +:+ salt +:+ "$" +:+ secret);
  bcrypt_verify := fun secret hash =>
    Ret (String.eqb hash ("$2b$12$c2FsdA$" +:+ secret));
  jwt_encode := fun payload _ =>
    match payload !! "sub" with
    | Some (VStr s) => Ret ("tok." +:+ s)
    | _ => Raise TypeError
    end;
  jwt_decode := fun token _ _ =>
    if Py.startswith token "tok."
    then Ret (<["sub" := VStr (String.substring 4 (String.length token - 4) token)]> ∅)
    else Raise InvalidTokenError;
  razorpay_import_error := None;
  razorpay_order_create := fun _ _ _ => Raise (GatewayError "no network");
  other_match := fun _ _ => false
|}.

Definition alice : User :=
  {| user_id := Some (str_oid 0); user_email := "alice@example.com";
     user_name := "Alice"; user_pan := "ABCDE1234F" |}.

(** Two registration forms with the same email. *)
Definition alice_form : UserRegister :=
  {| reg_email := "alice@example.com"; reg_password := "s3cret";
     reg_name := "Alice"; reg_pan := "ABCDE1234F" |}.


End Sample.

(** ** Notions used in the statements *)

(** The pattern [DEMO-<digits>]: the marker, then one digit or more and
    nothing else. *)
Definition is_demo_reference (s : string) : bool :=
  match s with
  | String "D" (String "E" (String "M" (String "O" (String "-" d)))) =>
      Py.truthy_str d && Py.all_digits d
  | _ => false
  end.

(** The failure kinds the authentication gate is specified to end in. *)
#[global] Instance exn_eq_dec : EqDecision exn.
Proof. solve_decision. Defined.

Definition is_auth_failure (e : exn) : bool :=
  bool_decide (e = MissingCredential) || bool_decide (e = ExpiredToken)
  || bool_decide (e = InvalidToken) || bool_decide (e = MalformedClaims)
  || bool_decide (e = UnknownSubject).

(** The gateway credentials are configured when both keys are set and not
    empty. *)
Definition gateway_configured (E : env) : bool :=
  Py.truthy_opt_str (environ E !! "RAZORPAY_KEY_ID")
  && Py.truthy_opt_str (environ E !! "RAZORPAY_KEY_SECRET").

(** The world after one more reading of the clock. *)
Definition tick (w : world) : world :=
  {| db := db w; next_id := next_id w; ticks := S (ticks w); draws := draws w |}.

(** A store in which one user record carries no password hash. *)
Definition world_without_hash : world :=
  {| db := {[ "user" := [ {| doc_id := 0;
                             doc_fields := {[ "email" := VStr "bob@example.com" ]} |} ] ]};
     next_id := 1; ticks := 0; draws := 0 |}.

(** The document and the world that [create_document] leaves behind. *)
Definition stamped (E : env) (w : world) (data : pydict) : pydict :=
  <["updated_at" := VFloat (Py.to_float (time_time E (ticks w)))]>
    (<["created_at" := VFloat (Py.to_float (time_time E (ticks w)))]> data).

Definition inserted (E : env) (name : string) (data : pydict) (w : world)
  : world :=
  {| db := <[name := (Store.collection w name
                      ++ [ {| doc_id := next_id w;
                              doc_fields := stamped E w data |} ])%list]> (db w);
     next_id := N.succ (next_id w);
     ticks := S (ticks w);
     draws := draws w |}.

(** A sector map that the store can hold: no key holds U+0000. *)
Definition sectors_storable (m : gmap string float) : bool :=
  bool_decide (map_Forall (fun k _ => Py.has_nul k = false) m).

(** What the store rejects in a demo payment: an amount outside 64 bits,
    then an allocation with a key that holds U+0000. *)
Definition payment_error (payload : DemoPayRequest) : option exn :=
  if Store.int_fits (VInt (pay_amount payload))
  then if sectors_storable (pay_allocation payload) then None
       else Some InvalidDocument
  else Some OverflowError.



(** The allocation records of a user, in store order. *)
Definition allocations_of (w : world) (email : string) : list document :=
  Store.find w "allocation" [("user_email", email)].

(** The user records with a given email, in store order. *)
Definition users_with (w : world) (email : string) : list document :=
  Store.find w "user" [("email", email)].

(** The receipt records of a user, in store order. *)
Definition receipts_of (w : world) (email : string) : list document :=
  Store.find w "receipt" [("user_email", email)].

(** The world after one more draw from the random source. *)
Definition drawn (w : world) : world :=
  {| db := db w; next_id := next_id w; ticks := ticks w; draws := S (draws w) |}.

(** The user record that [register] writes. *)
Definition user_doc (payload : UserRegister) (password_hash : string) : pydict :=
  <["pan" := VStr (reg_pan payload)]>
    (<["name" := VStr (reg_name payload)]>
       (<["password_hash" := VStr password_hash]>
          (<["email" := VStr (reg_email payload)]> ∅))).

(** The whole seconds of a reading of [time.time()]. *)
Definition epoch_int (t : Py.epoch_seconds) : Z :=
  default 0%Z (Py.int_of_float (Py.to_float t)).

(** The request of the demo payment of the specification, and the receipt
    it is answered with when the clock reads [seconds]. *)
Definition demo_payload : DemoPayRequest :=
  {| pay_amount := 500; pay_regime := "new";
     pay_allocation := {[ "health" := float_100 ]} |}.

Definition demo_receipt (id : option string) (email : string) (seconds : Z)
  : Receipt :=
  {| receipt_id := id;
     receipt_user_email := email;
     receipt_amount := 500;
     receipt_currency := "INR";
     receipt_regime := "new";
     receipt_allocation := {[ "health" := float_100 ]};
     receipt_payment_method := "demo";
     receipt_reference := Some ("DEMO-" +:+ Py.str_int seconds) |}.

(** A store in which a user already has a hundred receipts: a hundred demo
    payments made one after the other. *)
Definition world_with_100_receipts : world :=
  Nat.iter 100 (fun w => (pay_demo Sample.E demo_payload Sample.alice w).2)
    empty_world.

(** One more payment in that store, and the listing of the first hundred
    receipts: the [k]-th was paid at the [2k]-th reading of the clock. *)
Definition payment_101 : outcome Receipt * world :=
  pay_demo Sample.E demo_payload Sample.alice world_with_100_receipts.

Definition first_100_receipts : list Receipt :=
  map (fun k => demo_receipt (Some (str_oid (N.of_nat k))) "alice@example.com"
                  (1700000000 + 2 * Z.of_nat k))
      (seq 0 100).

(** The worlds that the writing handlers leave behind. *)
Definition after_create (E : env) (name : string) (data : pydict) (w : world)
  : world :=
  (Store.create_document E name data w).2.

Definition after_save (E : env) (payload : SaveAllocationRequest)
  (user : User) (w : world) : world :=
  (save_allocation E payload user w).2.

Definition after_register (E : env) (payload : UserRegister) (w : world)
  : world :=
  (register E payload w).2.

Definition after_pay_demo (E : env) (payload : DemoPayRequest) (user : User)
  (w : world) : world :=
  (pay_demo E payload user w).2.

(** The expiry of a token issued in world [w] with the default lifetime,
    and the claims that login signs. *)
Definition default_expiry (E : env) (w : world) : Z :=
  (utcnow E (ticks w) + 24 * us_per_hour)%Z.

Definition login_claims (E : env) (payload : UserLogin) (w : world) : pydict :=
  <["exp" := VDatetime (default_expiry E w)]>
    (<["sub" := VStr (login_email payload)]> ∅).

(** The seconds that the clock reads when a handler starts in [w]. *)
Definition seconds_at (E : env) (w : world) : Z :=
  epoch_int (time_time E (ticks w)).

(** The receipt record that [pay_demo] writes. *)
Definition receipt_fields (payload : DemoPayRequest) (email : string)
  (seconds : Z) : pydict :=
  <["reference" := VStr ("DEMO-" +:+ Py.str_int seconds)]>
    (<["payment_method" := VStr "demo"]>
       (<["allocation" := VDict (pay_allocation payload)]>
          (<["regime" := VStr (pay_regime payload)]>
             (<["currency" := VStr "INR"]>
                (<["amount" := VInt (pay_amount payload)]>
                   (<["user_email" := VStr email]> ∅)))))).

(** The receipt that answers a demo payment; [id] is [None] in the answer
    of [pay_demo] and the store's [_id] in the listing. *)
Definition receipt_for (payload : DemoPayRequest) (id : option string)
  (email : string) (seconds : Z) : Receipt :=
  {| receipt_id := id;
     receipt_user_email := email;
     receipt_amount := pay_amount payload;
     receipt_currency := "INR";
     receipt_regime := pay_regime payload;
     receipt_allocation := pay_allocation payload;
     receipt_payment_method := "demo";
     receipt_reference := Some ("DEMO-" +:+ Py.str_int seconds) |}.

(** ** Notions used in the further properties *)

(** A computation that writes nothing to the store. *)
Definition preserves_store {A} (m : M A) : Prop :=
  forall w, db (m w).2 = db w /\ next_id (m w).2 = next_id w.

(** A user record as [register] writes it: the email, the name and the tax
    id are strings. *)
Definition is_str (o : option value) : bool :=
  match o with Some (VStr _) => true | _ => false end.

Definition user_record_ok (d : document) : bool :=
  is_str (doc_fields d !! "email") && is_str (doc_fields d !! "name")
  && is_str (doc_fields d !! "pan").

Definition users_well_formed (w : world) : bool :=
  forallb user_record_ok (Store.collection w "user").

(** A receipt record that the listing can read. *)
Definition is_ret {A} (o : outcome A) : bool :=
  match o with Ret _ => true | Raise _ => false end.

Definition receipts_well_formed (w : world) : bool :=
  forallb (fun d => is_ret (receipt_of_document d))
    (Store.collection w "receipt").

(** The store holds only records that the service can read back. *)
Definition well_formed (w : world) : bool :=
  users_well_formed w && receipts_well_formed w.

(** From [w] to [w'], at most one document was added, at the end of the
    collection [coll], and nothing else changed in any collection. *)
Definition appends_at_most_one (coll : string) (w w' : world) : Prop :=
  exists new : list document,
    length new <= 1
    /\ forall name,
         Store.collection w' name
         = (Store.collection w name
            ++ (if bool_decide (name = coll) then new else []))%list.

(** A store in which a receipt record of a user has no amount. *)
Definition world_with_broken_receipt : world :=
  {| db := {[ "receipt" :=
                [ {| doc_id := 0;
                     doc_fields :=
                       {[ "user_email" := VStr "alice@example.com" ]} |} ] ]};
     next_id := 1; ticks := 0; draws := 0 |}.

(** A second user of the sample. *)
Definition sample_bob : User :=
  {| user_id := Some (str_oid 1); user_email := "bob@example.com";
     user_name := "Bob"; user_pan := "FGHIJ5678K" |}.

(** What [create_razorpay_order] sends to the gateway: the amount and the
    currency of the request, its notes or an empty dict, and its receipt
    label or, when it has none, a label made of the seconds of the clock;
    and the world it leaves when it got that far (the clock is read only
    for the label). *)
Definition sent_order (E : env) (payload : RazorpayOrderRequest) (w : world)
  : order_request :=
  {| order_amount := rzp_amount payload;
     order_currency := rzp_currency payload;
     order_receipt :=
       if Py.truthy_opt_str (rzp_receipt payload)
       then default "" (rzp_receipt payload)
       else "rcpt_" +:+ Py.str_int (seconds_at E w);
     order_notes := default ∅ (rzp_notes payload) |}.

Definition world_after_order (payload : RazorpayOrderRequest) (w : world)
  : world :=
  if Py.truthy_opt_str (rzp_receipt payload) then w else tick w.

(** The sample environment with a clock that stands still. *)
Definition frozen_clock_env : env :=
  {| environ := environ Sample.E;
     time_time := fun _ => Py.EpochSeconds 1700000000 0;
     utcnow := utcnow Sample.E;
     salts := salts Sample.E;
     bcrypt_hash := bcrypt_hash Sample.E;
     bcrypt_verify := bcrypt_verify Sample.E;
     jwt_encode := jwt_encode Sample.E;
     jwt_decode := jwt_decode Sample.E;
     razorpay_import_error := razorpay_import_error Sample.E;
     razorpay_order_create := razorpay_order_create Sample.E;
     other_match := other_match Sample.E |}.

(** The sample environment with gateway keys and a gateway that answers
    every order with the same order id and no status. *)
Definition gateway_env : env :=
  {| environ := <["RAZORPAY_KEY_SECRET" := "secret"]>
                  (<["RAZORPAY_KEY_ID" := "rzp_test"]> ∅);
     time_time := time_time Sample.E;
     utcnow := utcnow Sample.E;
     salts := salts Sample.E;
     bcrypt_hash := bcrypt_hash Sample.E;
     bcrypt_verify := bcrypt_verify Sample.E;
     jwt_encode := jwt_encode Sample.E;
     jwt_decode := jwt_decode Sample.E;
     razorpay_import_error := None;
     razorpay_order_create := fun _ _ req =>
       Ret (<["currency" := VStr (order_currency req)]>
              (<["amount" := VInt (order_amount req)]>
                 (<["id" := VStr "order_1"]> ∅)));
     other_match := other_match Sample.E |}.

(** The same with a gateway that refuses every order. *)
Definition refusing_gateway_env : env :=
  {| environ := environ gateway_env;
     time_time := time_time gateway_env;
     utcnow := utcnow gateway_env;
     salts := salts gateway_env;
     bcrypt_hash := bcrypt_hash gateway_env;
     bcrypt_verify := bcrypt_verify gateway_env;
     jwt_encode := jwt_encode gateway_env;
     jwt_decode := jwt_decode gateway_env;
     razorpay_import_error := None;
     razorpay_order_create := fun _ _ _ =>
       Raise (GatewayError "bad request");
     other_match := other_match Sample.E |}.

(** passlib's bcrypt handler refuses a secret that holds U+0000 and one
    of more than 4096 characters with a [ValueError], when it hashes and
    when it verifies.  The sample environment with this refusal in front
    of its stand-ins, and a registration and a login with such a
    password. *)
Definition max_password_size : nat := 4096.

Definition secret_refused (secret : string) : bool :=
  Py.has_nul secret || (max_password_size <? String.length secret)%nat.

Definition refusing_hash_env : env :=
  {| environ := environ Sample.E;
     time_time := time_time Sample.E;
     utcnow := utcnow Sample.E;
     salts := salts Sample.E;
     bcrypt_hash := fun secret salt =>
       if secret_refused secret then Raise ValueError
       else bcrypt_hash Sample.E secret salt;
     bcrypt_verify := fun secret hash =>
       if secret_refused secret then Raise ValueError
       else bcrypt_verify Sample.E secret hash;
     jwt_encode := jwt_encode Sample.E;
     jwt_decode := jwt_decode Sample.E;
     razorpay_import_error := razorpay_import_error Sample.E;
     razorpay_order_create := razorpay_order_create Sample.E;
     other_match := other_match Sample.E |}.

Definition nul_password : string := String "p" (String "000" (String "w" "")).


Definition alice_nul_login : UserLogin :=
  {| login_email := "alice@example.com"; login_password := nul_password |}.

(** The world after a list of saves by one user, the first of the list
    first. *)
Definition after_saves (E : env) (payloads : list SaveAllocationRequest)
  (user : User) (w : world) : world :=
  fold_left (fun w payload => after_save E payload user w) payloads w.

(** * Properties *)

(** ** Python strings *)

Example split_two : Py.split "Bearer  abc.def " = ["Bearer"; "abc.def"].
Proof. reflexivity. Qed.

Example split_blank : Py.split "   " = [].
Proof. reflexivity. Qed.

Example lower_mixed : Py.lower "BeArEr x" = "bearer x".
Proof. reflexivity. Qed.

Example str_int_0 : Py.str_int 0 = "0".
Proof. reflexivity. Qed.

Example str_int_neg : Py.str_int (-12) = "-12".
Proof. reflexivity. Qed.

Example no_break_space : Py.isspace "160" = true.
Proof. reflexivity. Qed.

Example day_in_microseconds : (24 * us_per_hour = 86400 * 1000000)%Z.
Proof. reflexivity. Qed.

Lemma append_cons (c : ascii) (s r : string) :
  String c s +:+ r = String c (s +:+ r).
Proof. reflexivity. Qed.

Lemma append_empty_r (s : string) : s +:+ "" = s.
Proof.
  induction s as [|c s IH]; [reflexivity|].
  now rewrite append_cons, IH.
Qed.

Lemma append_snoc (s : string) (c : ascii) (r : string) :
  (s +:+ String c "") +:+ r = s +:+ String c r.
Proof.
  induction s as [|d s IH]; [reflexivity|].
  now rewrite !append_cons, IH.
Qed.

Lemma append_is_empty (s r : string) : s +:+ r = "" -> s = "" /\ r = "".
Proof. destruct s; [auto | rewrite append_cons; discriminate]. Qed.

(** A run without white space is scanned to its end and makes, with what
    was scanned before it, a single word. *)
Lemma split_from_no_space (t cur : string) :
  Py.no_space t = true ->
  Py.split_from cur t = match cur +:+ t with "" => [] | w => [w] end.
Proof.
  revert cur. induction t as [|c t IH]; intros cur Hns.
  - rewrite append_empty_r. destruct cur; reflexivity.
  - unfold Py.no_space in Hns. simpl in Hns.
    apply andb_true_iff in Hns as [Hc Ht].
    apply negb_true_iff in Hc. simpl. rewrite Hc.
    rewrite (IH _ Ht), append_snoc. reflexivity.
Qed.

Lemma split_word (t : string) : Py.is_word t = true -> Py.split t = [t].
Proof.
  intros Hw. unfold Py.split. destruct t as [|c t]; [discriminate|].
  rewrite split_from_no_space by exact Hw. reflexivity.
Qed.

(** After a word and one white space, the scan starts afresh. *)
Lemma split_from_word_space (p cur t : string) (c : ascii) :
  Py.no_space p = true -> Py.isspace c = true -> cur +:+ p <> "" ->
  Py.split_from cur (p +:+ String c t) = (cur +:+ p) :: Py.split t.
Proof.
  revert cur. induction p as [|d p IH]; intros cur Hns Hc Hne.
  - change ("" +:+ String c t) with (String c t).
    simpl. rewrite Hc. rewrite append_empty_r in *.
    destruct cur; [congruence | reflexivity].
  - unfold Py.no_space in Hns. simpl in Hns.
    apply andb_true_iff in Hns as [Hd Hp].
    apply negb_true_iff in Hd. rewrite append_cons. simpl. rewrite Hd.
    rewrite IH; [now rewrite append_snoc | exact Hp | exact Hc |].
    rewrite append_snoc. intros H. apply append_is_empty in H as [_ H].
    discriminate.
Qed.

Lemma lower_append (s r : string) :
  Py.lower (s +:+ r) = Py.lower s +:+ Py.lower r.
Proof.
  induction s as [|c s IH]; [reflexivity|].
  rewrite append_cons. simpl. now rewrite IH, append_cons.
Qed.

Lemma startswith_append (p r : string) : Py.startswith (p +:+ r) p = true.
Proof.
  induction p as [|c p IH]; [reflexivity|].
  rewrite append_cons. simpl. now rewrite Ascii.eqb_refl, IH.
Qed.

(** Lower-casing never turns white space into a letter, nor a character
    that is no white space into a space. *)
Lemma lower_char_space (c : ascii) :
  Py.isspace (Py.lower_char c) = Py.isspace c.
Proof. destruct c as [[] [] [] [] [] [] [] []]; reflexivity. Qed.

Lemma lower_char_is_space (c : ascii) :
  Py.lower_char c = " "%char -> c = " "%char.
Proof. destruct c as [[] [] [] [] [] [] [] []]; vm_compute; congruence. Qed.

Lemma no_space_lower (s : string) :
  Py.no_space (Py.lower s) = Py.no_space s.
Proof.
  unfold Py.no_space. induction s as [|c s IH]; simpl; [reflexivity|].
  now rewrite lower_char_space, IH.
Qed.

(** ** The bearer scheme *)

(** Whatever the case of its letters, a header that starts with the scheme
    marker passes the guard, and the token taken from it is the first word
    after the marker. *)
Lemma bearer_any_case (p t : string) :
  Py.lower p = "bearer " ->
  has_bearer_scheme (Some (p +:+ t)) = true
  /\ bearer_token (p +:+ t) = index (Py.split t) 0.
Proof.
  intros Hp. split.
  - unfold has_bearer_scheme. rewrite lower_append, Hp, startswith_append.
    destruct p; [discriminate | reflexivity].
  - destruct p as [|c1 [|c2 [|c3 [|c4 [|c5 [|c6 [|c7 [|c8 p]]]]]]]];
      try discriminate Hp.
    simpl in Hp. injection Hp as H1 H2 H3 H4 H5 H6 H7.
    apply lower_char_is_space in H7. subst c7.
    set (word := String c1 (String c2 (String c3
                   (String c4 (String c5 (String c6 "")))))).
    assert (Hns : Py.no_space word = true).
    { rewrite <- no_space_lower. subst word. simpl.
      rewrite H1, H2, H3, H4, H5, H6. reflexivity. }
    unfold bearer_token, Py.split.
    change (String c1 (String c2 (String c3 (String c4 (String c5
              (String c6 (String " " ""))))))) with (word +:+ String " " "").
    rewrite append_snoc.
    rewrite (split_from_word_space word "" t " " Hns eq_refl);
      [reflexivity | discriminate].
Qed.

(** The gate at work on the sample environment: a registered user is
    resolved from a token in any casing of the marker, and a missing
    header is a missing credential. *)
Example resolve_registered_user :
  (get_current_user Sample.E (Some "bEaReR tok.alice@example.com")
     (after_register Sample.E Sample.alice_form empty_world)).1
  = Ret Sample.alice.
Proof. vm_compute. reflexivity. Qed.

Example resolve_without_header (E : env) (w : world) :
  get_current_user E None w = (Raise MissingCredential, w)
  /\ get_current_user E (Some "Bearer") w = (Raise MissingCredential, w).
Proof. split; reflexivity. Qed.

(** C10: the headers "Bearer <token>", "bearer <token>" and
    "BEARER <token>" all pass the scheme check, the same token is taken
    from the three of them, and for a token without white space it is the
    token itself. *)
Theorem bearer_scheme_case_insensitive (t : string) :
  (has_bearer_scheme (Some ("Bearer " +:+ t)) = true
   /\ has_bearer_scheme (Some ("bearer " +:+ t)) = true
   /\ has_bearer_scheme (Some ("BEARER " +:+ t)) = true)
  /\ (bearer_token ("bearer " +:+ t) = bearer_token ("Bearer " +:+ t)
      /\ bearer_token ("BEARER " +:+ t) = bearer_token ("Bearer " +:+ t))
  /\ (Py.is_word t = true -> bearer_token ("Bearer " +:+ t) = Ret t).
Proof.
  destruct (bearer_any_case "Bearer " t eq_refl) as [S1 T1].
  destruct (bearer_any_case "bearer " t eq_refl) as [S2 T2].
  destruct (bearer_any_case "BEARER " t eq_refl) as [S3 T3].
  repeat split; try assumption; try congruence.
  intros Hw. rewrite T1, (split_word t Hw). reflexivity.
Qed.

Lemma bearer_scheme_case_insensitive_witness :
  has_bearer_scheme (Some "BEARER abc.def.ghi") = true
  /\ bearer_token "BEARER abc.def.ghi" = Ret "abc.def.ghi".
Proof.
  destruct (bearer_scheme_case_insensitive "abc.def.ghi") as (Hs & He & Ht).
  split.
  - exact (proj2 (proj2 Hs)).
  - etransitivity; [exact (proj2 He) | apply Ht; reflexivity].
Defined.

(** C3: a header that carries the scheme marker and nothing but white
    space after it passes the guard, and taking the token then fails with
    [IndexError], which is none of the authentication failures.  The first
    header is the marker alone; the second ends in a no-break space. *)
Theorem get_current_user_scheme_only (E : env) (w : world) :
  get_current_user E (Some "Bearer ") w = (Raise IndexError, w)
  /\ get_current_user E (Some (String "B" (String "e" (String "a" (String "r"
        (String "e" (String "r" (String " " (String "160" ""))))))))) w
     = (Raise IndexError, w)
  /\ is_auth_failure IndexError = false.
Proof. repeat split. Qed.

(** C2: a hash that the context does not recognise makes verification
    raise [UnknownHashError] instead of answering [False], and so does a
    login against a user record that carries no hash. *)
Theorem verify_password_unknown_hash (E : env) (password : string) :
  verify_password E password "" = Raise UnknownHashError
  /\ verify_password E password "plain-text" = Raise UnknownHashError
  /\ login E {| login_email := "bob@example.com"; login_password := password |}
       world_without_hash
     = (Raise UnknownHashError, world_without_hash).
Proof. repeat split. Qed.

(** ** The gateway order *)

(** C8: without configured gateway credentials the order request fails
    with [GatewayNotConfigured] and the world, the store with it, is left
    as it was. *)
Theorem razorpay_order_not_configured
  (E : env) (payload : RazorpayOrderRequest) (user : User) (w : world) :
  gateway_configured E = false ->
  create_razorpay_order E payload user w = (Raise GatewayNotConfigured, w).
Proof.
  unfold gateway_configured, create_razorpay_order. intros H.
  rewrite <- negb_andb, H. reflexivity.
Qed.

Lemma razorpay_order_not_configured_witness :
  gateway_configured Sample.E = false
  /\ create_razorpay_order Sample.E
       {| rzp_amount := 50000; rzp_currency := "INR";
          rzp_receipt := None; rzp_notes := None |}
       Sample.alice empty_world
     = (Raise GatewayNotConfigured, empty_world).
Proof.
  split; [reflexivity|].
  apply razorpay_order_not_configured. reflexivity.
Defined.

(** ** Tokens *)

(** The default lifetime is twenty-four hours. *)
Lemma default_lifetime : timedelta_minutes (60 * 24) = Ret (24 * us_per_hour)%Z.
Proof. reflexivity. Qed.

Lemma create_token_default_run (E : env) (data : pydict) (w : world) :
  (datetime_min <= utcnow E (ticks w) + 24 * us_per_hour <= datetime_max)%Z ->
  create_token E data None w
  = (jwt_encode E
       (<["exp" := VDatetime (utcnow E (ticks w) + 24 * us_per_hour)]> data)
       (JWT_SECRET E),
     tick w).
Proof.
  intros [Hlo Hhi].
  unfold create_token, bind, lift, read_utcnow. simpl default.
  rewrite default_lifetime. unfold datetime_add.
  apply Z.leb_le in Hlo, Hhi. rewrite Hlo, Hhi. reflexivity.
Qed.

(** C9: with the default lifetime, the token is the signed form of the
    claims together with an expiry equal to the issue time plus 24 hours
    (as long as that instant is a date the calendar has). *)
Theorem create_token_default_expiry (E : env) (data : pydict) (w : world) :
  (datetime_min <= utcnow E (ticks w) + 24 * us_per_hour <= datetime_max)%Z ->
  create_token E data None w
  = (jwt_encode E
       (<["exp" := VDatetime (utcnow E (ticks w) + 24 * us_per_hour)]> data)
       (JWT_SECRET E),
     tick w).
Proof. apply create_token_default_run. Qed.

Lemma create_token_default_expiry_witness :
  (datetime_min <= utcnow Sample.E (ticks empty_world) + 24 * us_per_hour
   <= datetime_max)%Z
  /\ create_token Sample.E {[ "sub" := VStr "alice@example.com" ]} None
       empty_world
     = (jwt_encode Sample.E
          (<["exp" := VDatetime (1700000000000000 + 24 * us_per_hour)]>
             {[ "sub" := VStr "alice@example.com" ]})
          (JWT_SECRET Sample.E),
        tick empty_world).
Proof.
  assert (Hrange : (datetime_min
                    <= utcnow Sample.E (ticks empty_world) + 24 * us_per_hour
                    <= datetime_max)%Z)
    by (vm_compute; split; discriminate).
  split; [exact Hrange|].
  exact (create_token_default_expiry Sample.E
           {[ "sub" := VStr "alice@example.com" ]} empty_world Hrange).
Defined.

(** ** The store *)

Section StoreFacts.

Variable E : env.

Lemma create_document_run (name : string) (data : pydict) (w : world) :
  Store.create_document E name data w
  = match Store.bson_error (stamped E w data) with
    | None => (Ret (str_oid (next_id w)), inserted E name data w)
    | Some e => (Raise e, tick w)
    end.
Proof.
  unfold Store.create_document, bind, read_time, Store.insert_one.
  fold (stamped E w data).
  destruct (Store.bson_error (stamped E w data)); reflexivity.
Qed.

Lemma get_documents_run (name : string) (flt : list (string * string))
  (n : nat) (w : world) :
  Store.get_documents name flt n w
  = (Ret (Store.limit_to n (Store.find w name flt)), w).
Proof. reflexivity. Qed.

Lemma collection_inserted (name : string) (data : pydict) (w : world) :
  Store.collection (inserted E name data w) name
  = (Store.collection w name
     ++ [ {| doc_id := next_id w; doc_fields := stamped E w data |} ])%list.
Proof.
  unfold Store.collection at 1. unfold inserted. simpl.
  rewrite lookup_insert_eq. reflexivity.
Qed.

Lemma collection_inserted_other (name other : string) (data : pydict)
  (w : world) :
  name <> other ->
  Store.collection (inserted E name data w) other = Store.collection w other.
Proof.
  intros Hne. unfold Store.collection, inserted. simpl.
  rewrite lookup_insert_ne by exact Hne. reflexivity.
Qed.

(** An insertion puts the new document after those already found. *)
Lemma find_inserted (name : string) (data : pydict) (w : world)
  (flt : list (string * string)) :
  Store.find (inserted E name data w) name flt
  = (Store.find w name flt
     ++ (if Store.matches flt {| doc_id := next_id w;
                                 doc_fields := stamped E w data |}
         then [ {| doc_id := next_id w; doc_fields := stamped E w data |} ]
         else []))%list.
Proof.
  unfold Store.find. rewrite collection_inserted, List.filter_app.
  simpl. destruct (Store.matches flt _); reflexivity.
Qed.

Lemma find_inserted_other (name other : string) (data : pydict) (w : world)
  (flt : list (string * string)) :
  name <> other ->
  Store.find (inserted E name data w) other flt = Store.find w other flt.
Proof.
  intros Hne. unfold Store.find.
  now rewrite collection_inserted_other.
Qed.

(** The time stamps do not hide a field of the data. *)
Lemma stamped_lookup (w : world) (data : pydict) (k : string) :
  k <> "created_at" -> k <> "updated_at" ->
  stamped E w data !! k = data !! k.
Proof.
  intros H1 H2. unfold stamped.
  rewrite lookup_insert_ne by congruence.
  rewrite lookup_insert_ne by congruence. reflexivity.
Qed.

(** What the store rejects, read off the bindings of the document. *)
Lemma bson_error_none (fields : pydict) :
  (forall k v, fields !! k = Some v ->
     Store.int_fits v = true /\ Store.keys_fit k v = true) ->
  Store.bson_error fields = None.
Proof.
  intros H. unfold Store.bson_error.
  rewrite !bool_decide_eq_true_2; [reflexivity| |];
    intros k v Hk; now apply (H k v).
Qed.

Lemma bson_error_overflow (fields : pydict) (k : string) (v : value) :
  fields !! k = Some v -> Store.int_fits v = false ->
  Store.bson_error fields = Some OverflowError.
Proof.
  intros Hk Hv. unfold Store.bson_error.
  rewrite bool_decide_eq_false_2; [reflexivity|].
  intros H. specialize (H k v Hk). simpl in H. congruence.
Qed.

Lemma bson_error_key (fields : pydict) (k : string) (v : value) :
  (forall k' v', fields !! k' = Some v' -> Store.int_fits v' = true) ->
  fields !! k = Some v -> Store.keys_fit k v = false ->
  Store.bson_error fields = Some InvalidDocument.
Proof.
  intros Hints Hk Hv. unfold Store.bson_error.
  rewrite bool_decide_eq_true_2 by exact Hints.
  rewrite bool_decide_eq_false_2; [reflexivity|].
  intros H. specialize (H k v Hk). simpl in H. congruence.
Qed.

(** The bindings of a stamped document: the two stamps, and the data. *)
Lemma stamped_binding (w : world) (data : pydict) (k : string) (v : value) :
  stamped E w data !! k = Some v ->
  (exists f, v = VFloat f /\ (k = "created_at" \/ k = "updated_at"))
  \/ (k <> "created_at" /\ k <> "updated_at" /\ data !! k = Some v).
Proof.
  unfold stamped. intros H.
  destruct (decide (k = "updated_at")) as [->|H1].
  - rewrite lookup_insert_eq in H. injection H as <-. left. eauto.
  - rewrite lookup_insert_ne in H by congruence.
    destruct (decide (k = "created_at")) as [->|H2].
    + rewrite lookup_insert_eq in H. injection H as <-. left. eauto.
    + rewrite lookup_insert_ne in H by congruence. right. auto.
Qed.

End StoreFacts.

(** Every document that a query finds carries the fields of the filter. *)
Lemma find_matches (w : world) (name : string) (flt : list (string * string))
  (d : document) :
  In d (Store.find w name flt) -> Store.matches flt d = true.
Proof. unfold Store.find. intros H. now apply List.filter_In in H. Qed.

Lemma matches_one (k s : string) (d : document) :
  Store.matches [(k, s)] d = true <-> doc_fields d !! k = Some (VStr s).
Proof.
  unfold Store.matches. simpl. rewrite andb_true_r.
  apply bool_decide_eq_true.
Qed.

(** The allocation record is stored when its sector map can be, and is
    rejected as an invalid document when it cannot. *)
Lemma allocation_doc_error (E : env) (w : world) (m : gmap string float)
  (email : string) :
  Store.bson_error
    (stamped E w (<["sectors" := VDict m]> (<["user_email" := VStr email]> ∅)))
  = if sectors_storable m then None else Some InvalidDocument.
Proof.
  destruct (sectors_storable m) eqn:Hm.
  - apply bson_error_none. intros k v Hk.
    apply stamped_binding in Hk as [(f & -> & [-> | ->]) | (H1 & H2 & Hk)];
      [now split | now split |].
    destruct (decide (k = "sectors")) as [->|Hs].
    + rewrite lookup_insert_eq in Hk. injection Hk as <-.
      split; [reflexivity | exact Hm].
    + rewrite lookup_insert_ne in Hk by congruence.
      destruct (decide (k = "user_email")) as [->|Hu].
      * rewrite lookup_insert_eq in Hk. injection Hk as <-. now split.
      * rewrite lookup_insert_ne in Hk by congruence.
        rewrite lookup_empty in Hk. discriminate.
  - apply (bson_error_key _ "sectors" (VDict m)).
    + intros k v Hk.
      apply stamped_binding in Hk as [(f & -> & _) | (H1 & H2 & Hk)];
        [reflexivity|].
      destruct (decide (k = "sectors")) as [->|Hs].
      * rewrite lookup_insert_eq in Hk. now injection Hk as <-.
      * rewrite lookup_insert_ne in Hk by congruence.
        destruct (decide (k = "user_email")) as [->|Hu].
        -- rewrite lookup_insert_eq in Hk. now injection Hk as <-.
        -- rewrite lookup_insert_ne in Hk by congruence.
           rewrite lookup_empty in Hk. discriminate.
    + rewrite stamped_lookup by discriminate. apply lookup_insert_eq.
    + exact Hm.
Qed.

(** ** Allocations *)

(** What [get_allocation] answers: the sector map of the first allocation
    record of the user in store order, or an empty map. *)
Lemma get_allocation_run (user : User) (w : world) :
  get_allocation user w
  = (Ret (<["sectors" :=
             match allocations_of w (user_email user) with
             | [] => VDict ∅
             | d :: _ => get_default (doc_fields d) "sectors" (VDict ∅)
             end]> ∅), w).
Proof.
  unfold get_allocation, bind. rewrite get_documents_run.
  fold (allocations_of w (user_email user)).
  destruct (allocations_of w (user_email user)) as [|d [|d' l]]; reflexivity.
Qed.

(** What [save_allocation] does: one more allocation record, whether or
    not the user had one. *)
Lemma save_allocation_run (E : env) (payload : SaveAllocationRequest)
  (user : User) (w : world) :
  save_allocation E payload user w
  = if sectors_storable (save_sectors payload)
    then (Ret {| message := "Allocation saved" |},
          inserted E "allocation"
            (<["sectors" := VDict (save_sectors payload)]>
               (<["user_email" := VStr (user_email user)]> ∅)) w)
    else (Raise InvalidDocument, tick w).
Proof.
  unfold save_allocation, bind. rewrite get_documents_run.
  assert (Hrun : forall l : list document,
            match l with
            | [] | _ => Store.create_document E "allocation"
                          (<["sectors" := VDict (save_sectors payload)]>
                             (<["user_email" := VStr (user_email user)]> ∅))
            end w
            = if sectors_storable (save_sectors payload)
              then (Ret (str_oid (next_id w)),
                    inserted E "allocation"
                      (<["sectors" := VDict (save_sectors payload)]>
                         (<["user_email" := VStr (user_email user)]> ∅)) w)
              else (Raise InvalidDocument, tick w)).
  { intros l. destruct l; rewrite create_document_run, allocation_doc_error;
      destruct (sectors_storable _); reflexivity. }
  rewrite Hrun. destruct (sectors_storable _); reflexivity.
Qed.

Lemma allocations_after_save (E : env) (payload : SaveAllocationRequest)
  (user : User) (w : world) :
  allocations_of (save_allocation E payload user w).2 (user_email user)
  = (allocations_of w (user_email user)
     ++ (if sectors_storable (save_sectors payload)
         then [ {| doc_id := next_id w;
                   doc_fields := stamped E w
                     (<["sectors" := VDict (save_sectors payload)]>
                        (<["user_email" := VStr (user_email user)]> ∅)) |} ]
         else []))%list.
Proof.
  rewrite save_allocation_run.
  destruct (sectors_storable (save_sectors payload));
    [|now rewrite app_nil_r].
  simpl. unfold allocations_of. rewrite find_inserted.
  replace (Store.matches _ _) with true; [reflexivity|].
  symmetry. apply matches_one. simpl.
  rewrite stamped_lookup by discriminate.
  rewrite lookup_insert_ne by discriminate.
  apply lookup_insert_eq.
Qed.




(** C1: after two saves by a user who had no allocation record, fetching
    returns the sector map of the first save that was stored: the oldest
    record, and not that of the save made last.  (The store refuses a
    save only when a key of its map holds U+0000; when it refused the
    first, the second is the oldest, and when it refused both, the map
    is empty.) *)
Theorem get_allocation_returns_first_save (E : env)
  (first second : SaveAllocationRequest) (user : User) (w : world) :
  allocations_of w (user_email user) = [] ->
  get_allocation user
    (after_save E second user (after_save E first user w))
  = (Ret (<["sectors" :=
             VDict (if sectors_storable (save_sectors first)
                    then save_sectors first
                    else if sectors_storable (save_sectors second)
                         then save_sectors second
                         else ∅)]> ∅),
     after_save E second user (after_save E first user w)).
Proof.
  intros Hnone.
  rewrite get_allocation_run. unfold after_save.
  rewrite !allocations_after_save, Hnone.
  destruct (sectors_storable (save_sectors first));
    [|destruct (sectors_storable (save_sectors second))];
    simpl; [| |reflexivity];
    unfold get_default; rewrite stamped_lookup by discriminate;
    rewrite lookup_insert_eq; reflexivity.
Qed.

Lemma get_allocation_returns_first_save_witness :
  get_allocation Sample.alice
    (after_save Sample.E {| save_sectors := {[ "defense" := float_25 ]} |}
       Sample.alice
       (after_save Sample.E {| save_sectors := {[ "health" := float_100 ]} |}
          Sample.alice empty_world))
  = (Ret (<["sectors" := VDict {[ "health" := float_100 ]}]> ∅),
     after_save Sample.E {| save_sectors := {[ "defense" := float_25 ]} |}
       Sample.alice
       (after_save Sample.E {| save_sectors := {[ "health" := float_100 ]} |}
          Sample.alice empty_world))
  /\ ({[ "health" := float_100 ]} : gmap string float)
     <> {[ "defense" := float_25 ]}.
Proof.
  split.
  - exact (get_allocation_returns_first_save Sample.E
             {| save_sectors := {[ "health" := float_100 ]} |}
             {| save_sectors := {[ "defense" := float_25 ]} |}
             Sample.alice empty_world eq_refl).
  - vm_compute. discriminate.
Defined.

(** ** Registration *)

Lemma register_hash_fails (E : env) (payload : UserRegister) (w : world)
  (e : exn) :
  users_with w (reg_email payload) = [] ->
  bcrypt_hash E (reg_password payload) (salts E (draws w)) = Raise e ->
  register E payload w = (Raise e, drawn w).
Proof.
  intros Hnone Hhash. unfold register, bind. rewrite get_documents_run.
  fold (users_with w (reg_email payload)). rewrite Hnone. simpl.
  unfold hash_password, pwd_context_hash, bind, draw_salt, lift.
  rewrite Hhash. reflexivity.
Qed.

Section Registration.

Variable E : env.

Lemma register_taken (payload : UserRegister) (w : world) :
  users_with w (reg_email payload) <> [] ->
  register E payload w = (Raise DuplicateEmail, w).
Proof.
  intros Hsome. unfold register, bind. rewrite get_documents_run.
  fold (users_with w (reg_email payload)).
  destruct (users_with w (reg_email payload)) as [|u l];
    [contradiction | reflexivity].
Qed.

Lemma register_fresh (payload : UserRegister) (w : world) (h : string) :
  users_with w (reg_email payload) = [] ->
  bcrypt_hash E (reg_password payload) (salts E (draws w)) = Ret h ->
  register E payload w
  = (Ret {| message := "Registered successfully" |},
     inserted E "user" (user_doc payload h) (drawn w)).
Proof.
  intros Hnone Hhash. unfold register, bind. rewrite get_documents_run.
  fold (users_with w (reg_email payload)). rewrite Hnone. simpl.
  unfold hash_password, pwd_context_hash, bind, draw_salt, lift.
  rewrite Hhash. reflexivity.
Qed.

Lemma users_after_register (payload : UserRegister) (w : world) (h : string) :
  users_with (inserted E "user" (user_doc payload h) (drawn w))
    (reg_email payload)
  = (users_with w (reg_email payload)
     ++ [ {| doc_id := next_id w;
             doc_fields := stamped E (drawn w) (user_doc payload h) |} ])%list.
Proof.
  unfold users_with. rewrite find_inserted.
  replace (Store.matches _ _) with true; [reflexivity|].
  symmetry. apply matches_one. simpl.
  rewrite stamped_lookup by discriminate. unfold user_doc.
  rewrite !lookup_insert_ne by discriminate.
  apply lookup_insert_eq.
Qed.


End Registration.



(** ** Login *)

Section Login.

Variable E : env.

Lemma login_no_user (payload : UserLogin) (w : world) :
  users_with w (login_email payload) = [] ->
  login E payload w = (Raise InvalidCredentials, w).
Proof.
  intros Hnone. unfold login, bind. rewrite get_documents_run.
  fold (users_with w (login_email payload)). rewrite Hnone. reflexivity.
Qed.

(** With a user record found, what login does is decided by the
    verification of the password against the stored hash. *)
Lemma login_found (payload : UserLogin) (w : world) (u : document)
  (rest : list document) :
  users_with w (login_email payload) = u :: rest ->
  login E payload w
  = match verify_stored E (login_password payload)
            (get_default (doc_fields u) "password_hash" (VStr "")) with
    | Ret true =>
        bind (create_token E (<["sub" := VStr (login_email payload)]> ∅) None)
             (fun token =>
                ret {| access_token := token; token_type := "bearer" |}) w
    | Ret false => (Raise InvalidCredentials, w)
    | Raise e => (Raise e, w)
    end.
Proof.
  intros Hu.
  assert (Hemail : doc_fields u !! "email" = Some (VStr (login_email payload))).
  { apply (matches_one "email"). apply (find_matches w "user").
    fold (users_with w (login_email payload)). rewrite Hu. now left. }
  unfold login, bind at 1. rewrite get_documents_run.
  fold (users_with w (login_email payload)). rewrite Hu. simpl.
  unfold bind at 1, lift.
  destruct (verify_stored E _ _) as [[|]|e]; try reflexivity.
  simpl. unfold bind at 1, getitem. rewrite Hemail. reflexivity.
Qed.

(** C6, where the code departs from it: login fails with
    [InvalidCredentials] when no user record has the email and when the
    verification of the password answers [False], with the same outcome
    and the same untouched world in both cases; when it answers [True],
    the token that login returns is the signed form of claims whose
    subject is the email.  But the verification can also raise, and login
    does not catch it: login then ends with the exception of the
    verification and not with [InvalidCredentials].  It does so for every
    password when the record it found has no bcrypt hash, with
    [UnknownHashError]. *)
Theorem login_outcomes (payload : UserLogin) (w : world) :
  (users_with w (login_email payload) = [] ->
   login E payload w = (Raise InvalidCredentials, w))
  /\ (forall u rest,
        users_with w (login_email payload) = u :: rest ->
        verify_stored E (login_password payload)
          (get_default (doc_fields u) "password_hash" (VStr "")) = Ret false ->
        login E payload w = (Raise InvalidCredentials, w))
  /\ (forall u rest token,
        users_with w (login_email payload) = u :: rest ->
        verify_stored E (login_password payload)
          (get_default (doc_fields u) "password_hash" (VStr "")) = Ret true ->
        (datetime_min <= default_expiry E w <= datetime_max)%Z ->
        jwt_encode E (login_claims E payload w) (JWT_SECRET E) = Ret token ->
        login_claims E payload w !! "sub" = Some (VStr (login_email payload))
        /\ login E payload w
           = (Ret {| access_token := token; token_type := "bearer" |}, tick w))
  /\ (forall u rest e,
        users_with w (login_email payload) = u :: rest ->
        verify_stored E (login_password payload)
          (get_default (doc_fields u) "password_hash" (VStr "")) = Raise e ->
        login E payload w = (Raise e, w))
  /\ (forall u rest h,
        users_with w (login_email payload) = u :: rest ->
        get_default (doc_fields u) "password_hash" (VStr "") = VStr h ->
        bcrypt_identify h = false ->
        login E payload w = (Raise UnknownHashError, w)
        /\ UnknownHashError <> InvalidCredentials).
Proof.
  split; [apply login_no_user|]. split; [|split; [|split]].
  - intros u rest Hu Hbad. rewrite (login_found payload w u rest Hu), Hbad.
    reflexivity.
  - intros u rest token Hu Hgood Hrange Hsigned.
    split; [reflexivity|].
    rewrite (login_found payload w u rest Hu), Hgood.
    unfold bind. rewrite create_token_default_run by exact Hrange.
    fold (default_expiry E w). fold (login_claims E payload w).
    rewrite Hsigned. reflexivity.
  - intros u rest e Hu Hraise.
    rewrite (login_found payload w u rest Hu), Hraise. reflexivity.
  - intros u rest h Hu Hhash Hunknown. split; [|discriminate].
    rewrite (login_found payload w u rest Hu), Hhash.
    unfold verify_stored, verify_password, pwd_context_verify.
    rewrite Hunknown. reflexivity.
Qed.

End Login.

Lemma login_outcomes_witness :
  login Sample.E {| login_email := "carol@example.com";
                    login_password := "s3cret" |}
    (after_register Sample.E Sample.alice_form empty_world)
  = (Raise InvalidCredentials,
     after_register Sample.E Sample.alice_form empty_world)
  /\ login Sample.E {| login_email := "alice@example.com";
                       login_password := "guess" |}
       (after_register Sample.E Sample.alice_form empty_world)
     = (Raise InvalidCredentials,
        after_register Sample.E Sample.alice_form empty_world)
  /\ login Sample.E {| login_email := "alice@example.com";
                       login_password := "s3cret" |}
       (after_register Sample.E Sample.alice_form empty_world)
     = (Ret {| access_token := "tok.alice@example.com";
               token_type := "bearer" |},
        tick (after_register Sample.E Sample.alice_form empty_world))
  /\ login refusing_hash_env alice_nul_login
       (after_register refusing_hash_env Sample.alice_form empty_world)
     = (Raise ValueError,
        after_register refusing_hash_env Sample.alice_form empty_world)
  /\ login Sample.E {| login_email := "bob@example.com";
                       login_password := "pw" |} world_without_hash
     = (Raise UnknownHashError, world_without_hash).
Proof.
  pose (w := after_register Sample.E Sample.alice_form empty_world).
  pose (w' := after_register refusing_hash_env Sample.alice_form empty_world).
  pose (u := {| doc_id := 0;
                doc_fields := stamped Sample.E (drawn empty_world)
                                (user_doc Sample.alice_form
                                   "$2b$12$c2FsdA$s3cret") |}).
  pose (bob := {| doc_id := 0;
                  doc_fields := {[ "email" := VStr "bob@example.com" ]} |}).
  split; [|split; [|split; [|split]]].
  - exact (proj1 (login_outcomes Sample.E
                    {| login_email := "carol@example.com";
                       login_password := "s3cret" |} w) eq_refl).
  - exact (proj1 (proj2 (login_outcomes Sample.E
                    {| login_email := "alice@example.com";
                       login_password := "guess" |} w)) u [] eq_refl eq_refl).
  - refine (proj2 (proj1 (proj2 (proj2 (login_outcomes Sample.E
                    {| login_email := "alice@example.com";
                       login_password := "s3cret" |} w)))
                    u [] "tok.alice@example.com" eq_refl eq_refl _ eq_refl)).
    vm_compute. split; discriminate.
  - exact (proj1 (proj2 (proj2 (proj2 (login_outcomes refusing_hash_env
                    alice_nul_login w'))))
             u [] ValueError eq_refl eq_refl).
  - exact (proj1 (proj2 (proj2 (proj2 (proj2 (login_outcomes Sample.E
                    {| login_email := "bob@example.com";
                       login_password := "pw" |} world_without_hash))))
                    bob [] "" eq_refl eq_refl eq_refl)).
Defined.

(** ** Receipts *)

Lemma uint_digits (d : Decimal.uint) :
  Py.all_digits (NilEmpty.string_of_uint d) = true.
Proof. induction d; simpl; auto. Qed.

(** The decimal form of an integer that is not negative: one digit or
    more and nothing else. *)
Lemma str_int_digits (n : Z) :
  (0 <= n)%Z ->
  Py.truthy_str (Py.str_int n) = true /\ Py.all_digits (Py.str_int n) = true.
Proof.
  intros Hn. unfold Py.str_int.
  destruct n as [|p|p]; [split; reflexivity | | lia].
  simpl. unfold NilZero.string_of_uint.
  destruct (Pos.to_uint p) eqn:Hp;
    try (split; [reflexivity | rewrite <- Hp; apply uint_digits]).
  split; reflexivity.
Qed.

Lemma demo_reference_pattern (n : Z) :
  (0 <= n)%Z -> is_demo_reference ("DEMO-" +:+ Py.str_int n) = true.
Proof.
  intros Hn. destruct (str_int_digits n Hn) as [H1 H2].
  change ("DEMO-" +:+ Py.str_int n)
    with (String "D" (String "E" (String "M" (String "O"
            (String "-" (Py.str_int n)))))).
  simpl. now rewrite H1, H2.
Qed.

(** A reading of the clock has whole seconds, and they are not negative. *)
Lemma epoch_int_spec (t : Py.epoch_seconds) :
  Py.int_of_float (Py.to_float t) = Some (epoch_int t) /\ (0 <= epoch_int t)%Z.
Proof.
  unfold epoch_int, Py.to_float. destruct t as [[|m] e]; simpl.
  - split; [reflexivity | lia].
  - split; [reflexivity|].
    destruct (0 <=? e)%Z eqn:He.
    + apply Z.leb_le in He.
      apply Z.mul_nonneg_nonneg; [lia | apply Z.pow_nonneg; lia].
    + apply Z.leb_gt in He. apply Z.div_pos; [lia|].
      apply Z.pow_pos_nonneg; lia.
Qed.

Lemma int_time_run (E : env) (w : world) :
  int_time E w = (Ret (seconds_at E w), tick w).
Proof.
  unfold int_time, bind, read_time.
  destruct (epoch_int_spec (time_time E (ticks w))) as [H _].
  rewrite H. reflexivity.
Qed.

(** The loop of the listing goes through the documents in order. *)
Lemma list_receipts_loop_app (l1 l2 : list document) (acc : list Receipt) :
  list_receipts_loop (l1 ++ l2) acc
  = match list_receipts_loop l1 acc with
    | Ret items => list_receipts_loop l2 items
    | Raise e => Raise e
    end.
Proof.
  revert acc. induction l1 as [|d l1 IH]; intros acc; simpl; [reflexivity|].
  destruct (receipt_of_document d); [apply IH | reflexivity].
Qed.

Lemma list_receipts_loop_length (docs : list document)
  (acc items : list Receipt) :
  list_receipts_loop docs acc = Ret items ->
  length items = length acc + length docs.
Proof.
  revert acc. induction docs as [|d docs IH]; intros acc; simpl.
  - intros [= <-]. lia.
  - destruct (receipt_of_document d); [|discriminate].
    intros H. apply IH in H. rewrite length_app in H. simpl in H. lia.
Qed.

Lemma list_receipts_run (user : User) (w : world) :
  list_receipts user w
  = (match list_receipts_loop
             (Store.limit_to 100 (receipts_of w (user_email user))) [] with
     | Ret items => Ret {| items := items |}
     | Raise e => Raise e
     end, w).
Proof.
  unfold list_receipts, bind. rewrite get_documents_run.
  fold (receipts_of w (user_email user)). unfold lift.
  destruct (list_receipts_loop _ _); reflexivity.
Qed.

(** The two checks of the encoding, one binding at a time. *)
Lemma ints_fit_insert (k : string) (v : value) (m : pydict) :
  m !! k = None ->
  bool_decide (map_Forall (fun _ v => Store.int_fits v = true) (<[k:=v]> m))
  = Store.int_fits v
    && bool_decide (map_Forall (fun _ v => Store.int_fits v = true) m).
Proof.
  intros H.
  rewrite (bool_decide_ext _ (Store.int_fits v = true
             /\ map_Forall (fun _ v => Store.int_fits v = true) m))
    by (apply (map_Forall_insert (fun _ v => Store.int_fits v = true));
        exact H).
  rewrite bool_decide_and. now destruct (Store.int_fits v).
Qed.

Lemma keys_fit_insert (k : string) (v : value) (m : pydict) :
  m !! k = None ->
  bool_decide (map_Forall (fun k v => Store.keys_fit k v = true) (<[k:=v]> m))
  = Store.keys_fit k v
    && bool_decide (map_Forall (fun k v => Store.keys_fit k v = true) m).
Proof.
  intros H.
  rewrite (bool_decide_ext _ (Store.keys_fit k v = true
             /\ map_Forall (fun k v => Store.keys_fit k v = true) m))
    by (apply (map_Forall_insert (fun k v => Store.keys_fit k v = true));
        exact H).
  rewrite bool_decide_and. now destruct (Store.keys_fit k v).
Qed.

(** The receipt record is stored when its amount fits in 64 bits and its
    allocation can be stored. *)
Lemma receipt_doc_error (E : env) (w : world) (payload : DemoPayRequest)
  (email : string) (seconds : Z) :
  Store.bson_error (stamped E w (receipt_fields payload email seconds))
  = payment_error payload.
Proof.
  unfold Store.bson_error, stamped, receipt_fields, payment_error.
  rewrite !ints_fit_insert, !keys_fit_insert by reflexivity.
  rewrite !bool_decide_eq_true_2 by apply map_Forall_empty.
  change (Store.keys_fit "allocation" (VDict (pay_allocation payload)))
    with (sectors_storable (pay_allocation payload)).
  destruct (Store.int_fits (VInt (pay_amount payload)));
    destruct (sectors_storable (pay_allocation payload)); reflexivity.
Qed.

Section DemoPayment.

Variable E : env.

(** What [pay_demo] does, for any request: the receipt is written to the
    store, stamped, and returned without an id. *)
Lemma pay_demo_run (payload : DemoPayRequest) (user : User) (w : world) :
  pay_demo E payload user w
  = match payment_error payload with
    | None =>
        (Ret (receipt_for payload None (user_email user) (seconds_at E w)),
         inserted E "receipt"
           (receipt_fields payload (user_email user) (seconds_at E w))
           (tick w))
    | Some e => (Raise e, tick (tick w))
    end.
Proof.
  unfold pay_demo, bind at 1. rewrite int_time_run.
  unfold bind. fold (receipt_fields payload (user_email user) (seconds_at E w)).
  rewrite create_document_run, receipt_doc_error.
  destruct (payment_error payload); reflexivity.
Qed.

Lemma receipts_after_pay_demo (payload : DemoPayRequest) (user : User)
  (w : world) :
  receipts_of (after_pay_demo E payload user w) (user_email user)
  = (receipts_of w (user_email user)
     ++ match payment_error payload with
        | Some _ => []
        | None => [ {| doc_id := next_id w;
                       doc_fields := stamped E (tick w)
                         (receipt_fields payload (user_email user)
                            (seconds_at E w)) |} ]
        end)%list.
Proof.
  unfold after_pay_demo. rewrite pay_demo_run.
  destruct (payment_error payload); [now rewrite app_nil_r|].
  simpl. unfold receipts_of.
  rewrite find_inserted.
  replace (Store.matches _ _) with true.
  - reflexivity.
  - symmetry. apply matches_one. simpl.
    rewrite stamped_lookup by discriminate. unfold receipt_fields.
    rewrite !lookup_insert_ne by discriminate.
    apply lookup_insert_eq.
Qed.

(** The stored record reads back as the receipt, now with its id. *)
Lemma receipt_of_stored (payload : DemoPayRequest) (email : string)
  (seconds : Z) (id : N) (w : world) :
  receipt_of_document
    {| doc_id := id;
       doc_fields := stamped E w (receipt_fields payload email seconds) |}
  = Ret (receipt_for payload (Some (str_oid id)) email seconds).
Proof. reflexivity. Qed.

(** A payment by a user whose listing worked and held fewer than a hundred
    receipts adds its receipt at the end of the listing. *)
Lemma listing_after_pay_demo (payload : DemoPayRequest) (user : User)
  (w : world) (before : list Receipt) :
  payment_error payload = None ->
  list_receipts user w = (Ret {| items := before |}, w) ->
  length before < 100 ->
  list_receipts user (after_pay_demo E payload user w)
  = (Ret {| items := (before
                      ++ [receipt_for payload (Some (str_oid (next_id w)))
                            (user_email user) (seconds_at E w)])%list |},
     after_pay_demo E payload user w).
Proof.
  intros Hok Hbefore Hlen.
  rewrite list_receipts_run in Hbefore. rewrite list_receipts_run.
  rewrite receipts_after_pay_demo, Hok.
  set (docs := receipts_of w (user_email user)) in *.
  change 100 with (S 99) in *. unfold Store.limit_to in *.
  destruct (list_receipts_loop (take (S 99) docs) []) as [its|e] eqn:Hloop;
    [|discriminate].
  injection Hbefore as ->.
  apply list_receipts_loop_length in Hloop as Hn.
  rewrite length_take in Hn. simpl length in Hn.
  assert (Hdocs : length docs < S 99) by lia.
  rewrite take_ge in Hloop by lia.
  rewrite take_ge by (rewrite length_app; simpl; lia).
  rewrite list_receipts_loop_app, Hloop. simpl.
  rewrite receipt_of_stored. reflexivity.
Qed.

(** C7, as the code has it: the demo payment of 500 under the regime
    "new" with the allocation health = 100.0 is answered with a receipt
    that carries these, the payment method "demo", the currency "INR" and
    a reference of the form DEMO-<digits>; the receipt is stored as a new
    record; and it is the last item of the user's listing when that
    listing worked and held fewer than a hundred receipts before the
    payment. *)
Theorem pay_demo_receipt (user : User) (w : world) :
  (pay_demo E demo_payload user w).1
  = Ret (demo_receipt None (user_email user) (seconds_at E w))
  /\ is_demo_reference ("DEMO-" +:+ Py.str_int (seconds_at E w)) = true
  /\ (exists d : document,
        Store.collection (after_pay_demo E demo_payload user w) "receipt"
        = (Store.collection w "receipt" ++ [d])%list
        /\ receipt_of_document d
           = Ret (demo_receipt (Some (str_oid (next_id w))) (user_email user)
                    (seconds_at E w)))
  /\ (forall before : list Receipt,
        list_receipts user w = (Ret {| items := before |}, w) ->
        length before < 100 ->
        list_receipts user (after_pay_demo E demo_payload user w)
        = (Ret {| items :=
                    (before
                     ++ [demo_receipt (Some (str_oid (next_id w)))
                           (user_email user) (seconds_at E w)])%list |},
           after_pay_demo E demo_payload user w)).
Proof.
  split; [|split; [|split]].
  - rewrite pay_demo_run. reflexivity.
  - apply demo_reference_pattern, epoch_int_spec.
  - exists {| doc_id := next_id w;
              doc_fields := stamped E (tick w)
                (receipt_fields demo_payload (user_email user)
                   (seconds_at E w)) |}.
    unfold after_pay_demo. rewrite pay_demo_run.
    change (payment_error demo_payload) with (@None exn). simpl.
    rewrite collection_inserted.
    split; [reflexivity | apply receipt_of_stored].
  - intros before Hbefore Hlen.
    exact (listing_after_pay_demo demo_payload user w before eq_refl
             Hbefore Hlen).
Qed.

End DemoPayment.

Lemma pay_demo_receipt_witness :
  list_receipts Sample.alice empty_world = (Ret {| items := [] |}, empty_world)
  /\ (pay_demo Sample.E demo_payload Sample.alice empty_world).1
     = Ret (demo_receipt None "alice@example.com" 1700000000)
  /\ list_receipts Sample.alice
       (after_pay_demo Sample.E demo_payload Sample.alice empty_world)
     = (Ret {| items := [demo_receipt (Some (str_oid 0)) "alice@example.com"
                           1700000000] |},
        after_pay_demo Sample.E demo_payload Sample.alice empty_world).
Proof.
  destruct (pay_demo_receipt Sample.E Sample.alice empty_world)
    as (Hanswer & _ & _ & Hlisted).
  split; [reflexivity|]. split; [exact Hanswer|].
  apply (Hlisted [] eq_refl). simpl. lia.
Defined.

(** C7, as it is stated, fails for a user who already has a hundred
    receipts: the payment is answered and stored, but the listing returns
    the first hundred receipts only and the new one, whose reference is
    DEMO-1700000200, is not among them. *)
Lemma pay_demo_unlisted_after_100 :
  payment_101.1 = Ret (demo_receipt None "alice@example.com" 1700000200)
  /\ (list_receipts Sample.alice payment_101.2).1
     = Ret {| items := first_100_receipts |}
  /\ Forall (fun item => receipt_reference item <> Some "DEMO-1700000200")
       first_100_receipts.
Proof.
  split; [vm_compute; reflexivity|].
  split; [vm_compute; reflexivity|].
  apply (bool_decide_unpack _). vm_compute. exact I.
Qed.

(** * Further properties *)

(** ** The store, for every collection and filter *)

Lemma find_sublist (w : world) (name : string) (flt : list (string * string)) :
  Store.find w name flt `sublist_of` Store.collection w name.
Proof.
  unfold Store.find. induction (Store.collection w name) as [|d l IH]; simpl.
  - constructor.
  - destruct (Store.matches flt d); [now apply sublist_skip | now apply sublist_cons].
Qed.

Lemma limit_to_prefix {A} (n : nat) (l : list A) :
  Store.limit_to n l `prefix_of` l.
Proof. destruct n; [reflexivity | apply prefix_take]. Qed.

(** X1: A query with a filter of strings under plain keys is a read: the
    world is left as it was.  What it returns are documents of the
    collection, in the order of the collection, each of which holds,
    under every key of the filter, the string of the filter; and a limit
    that is not zero bounds their number. *)
Theorem get_documents_sound (name : string) (flt : list (string * string))
  (n : nat) (w : world) :
  Store.plain_filter flt = true ->
  exists docs : list document,
    Store.get_documents name flt n w = (Ret docs, w)
    /\ docs `sublist_of` Store.collection w name
    /\ Forall (fun d => forall k s, In (k, s) flt ->
                         doc_fields d !! k = Some (VStr s)) docs
    /\ (n <> 0 -> length docs <= n).
Proof.
  intros _. exists (Store.limit_to n (Store.find w name flt)).
  split; [reflexivity|]. split; [|split].
  - transitivity (Store.find w name flt); [|apply find_sublist].
    destruct n; [reflexivity | apply sublist_take].
  - apply Forall_forall. intros d Hd k s Hks.
    assert (Hm : Store.matches flt d = true).
    { apply (find_matches w name). apply list_elem_of_In.
      destruct (limit_to_prefix n (Store.find w name flt)) as [l Hl].
      rewrite Hl. apply elem_of_app. left.
      first [exact Hd | now apply list_elem_of_In]. }
    unfold Store.matches in Hm. rewrite forallb_forall in Hm.
    specialize (Hm (k, s) Hks). now apply bool_decide_eq_true in Hm.
  - intros Hn. destruct n; [congruence|]. simpl Store.limit_to.
    rewrite length_take. lia.
Qed.

Lemma get_documents_sound_witness :
  exists docs : list document,
    Store.get_documents "receipt" [("user_email", "alice@example.com")] 1
      world_with_broken_receipt
    = (Ret docs, world_with_broken_receipt)
    /\ docs `sublist_of` Store.collection world_with_broken_receipt "receipt"
    /\ Forall (fun d => doc_fields d !! "user_email"
                        = Some (VStr "alice@example.com")) docs
    /\ length docs <= 1.
Proof.
  destruct (get_documents_sound "receipt"
              [("user_email", "alice@example.com")] 1
              world_with_broken_receipt eq_refl)
    as (docs & H1 & H2 & H3 & H4).
  exists docs. repeat split; try assumption.
  - eapply Forall_impl; [exact H3|]. intros d Hd. apply Hd. now left.
  - apply H4. discriminate.
Defined.

(** X2: Without a limit, or with a limit that the answering documents do
    not exceed, a query with a filter of strings under plain keys
    returns every document of the collection that holds, under every key
    of the filter, the string of the filter. *)
Theorem get_documents_complete (name : string) (flt : list (string * string))
  (n : nat) (w : world) (d : document) :
  Store.plain_filter flt = true ->
  n = 0 \/ length (Store.find w name flt) <= n ->
  In d (Store.collection w name) ->
  (forall k s, In (k, s) flt -> doc_fields d !! k = Some (VStr s)) ->
  exists docs, Store.get_documents name flt n w = (Ret docs, w) /\ In d docs.
Proof.
  intros _ Hn Hin Hm. exists (Store.find w name flt). split.
  - rewrite get_documents_run. f_equal. f_equal.
    destruct Hn as [-> | Hn]; [reflexivity|].
    destruct n; [reflexivity|]. simpl. now apply take_ge.
  - unfold Store.find. apply List.filter_In. split; [exact Hin|].
    unfold Store.matches. apply forallb_forall. intros [k s] Hks.
    apply bool_decide_eq_true. now apply Hm.
Qed.

Lemma get_documents_complete_witness :
  exists docs,
    Store.get_documents "user" [("email", "alice@example.com")] 1
      (after_register Sample.E Sample.alice_form empty_world)
    = (Ret docs, after_register Sample.E Sample.alice_form empty_world)
    /\ In {| doc_id := 0;
             doc_fields := stamped Sample.E (drawn empty_world)
                             (user_doc Sample.alice_form
                                "$2b$12$c2FsdA$s3cret") |} docs.
Proof.
  apply get_documents_complete.
  - reflexivity.
  - right. vm_compute. lia.
  - vm_compute. now left.
  - intros k s [[= <- <-]|[]]. reflexivity.
Defined.



Lemma matches_stamped (E : env) (w : world) (data : pydict) (id : N)
  (flt : list (string * string)) :
  Forall (fun kv => kv.1 <> "created_at" /\ kv.1 <> "updated_at") flt ->
  Store.matches flt {| doc_id := id; doc_fields := stamped E w data |}
  = forallb (fun kv => bool_decide (data !! kv.1 = Some (VStr kv.2))) flt.
Proof.
  intros Hflt. unfold Store.matches. induction Hflt as [|kv flt [H1 H2] _ IH].
  - reflexivity.
  - simpl in *. rewrite IH, stamped_lookup by assumption. reflexivity.
Qed.

(** X4: Insert, then look up: after a document was created from data
    that bring no id of their own, a query with a filter of strings
    under plain keys that does not mention the time stamps finds it,
    after the documents it found before, exactly when the data hold the
    strings of the filter. *)
Theorem created_document_is_found (E : env) (name : string) (data : pydict)
  (flt : list (string * string)) (w : world) :
  data !! "_id" = None ->
  Store.plain_filter flt = true ->
  Forall (fun kv => kv.1 <> "created_at" /\ kv.1 <> "updated_at") flt ->
  Store.bson_error (stamped E w data) = None ->
  Store.get_documents name flt 0 (after_create E name data w)
  = (Ret (Store.find w name flt
          ++ (if forallb (fun kv => bool_decide
                                      (data !! kv.1 = Some (VStr kv.2))) flt
              then [ {| doc_id := next_id w; doc_fields := stamped E w data |} ]
              else []))%list,
     after_create E name data w).
Proof.
  intros _ _ Hflt Hok. unfold after_create.
  rewrite create_document_run, Hok. simpl snd.
  rewrite get_documents_run. simpl Store.limit_to.
  rewrite find_inserted, matches_stamped by exact Hflt. reflexivity.
Qed.

Lemma created_document_is_found_witness :
  Store.get_documents "allocation" [("user_email", "alice@example.com")] 0
    (after_create Sample.E "allocation"
       {[ "user_email" := VStr "alice@example.com" ]} empty_world)
  = (Ret [ {| doc_id := 0;
              doc_fields := stamped Sample.E empty_world
                              {[ "user_email" := VStr "alice@example.com" ]} |} ],
     after_create Sample.E "allocation"
       {[ "user_email" := VStr "alice@example.com" ]} empty_world).
Proof.
  refine (created_document_is_found Sample.E "allocation"
            {[ "user_email" := VStr "alice@example.com" ]}
            [("user_email", "alice@example.com")] empty_world
            _ eq_refl _ _).
  - vm_compute. reflexivity.
  - repeat constructor; discriminate.
  - vm_compute. reflexivity.
Defined.

(** ** The header, for every string *)

(** X5: The guard accepts a header exactly when it is a marker, in any
    casing of its letters and with its space, followed by anything. *)
Theorem bearer_scheme_characterised (a : string) :
  has_bearer_scheme (Some a) = true
  <-> exists p t, a = p +:+ t /\ Py.lower p = "bearer ".
Proof.
  split.
  - unfold has_bearer_scheme. intros H.
    apply andb_true_iff in H as [_ H].
    destruct a as [|c1 [|c2 [|c3 [|c4 [|c5 [|c6 [|c7 t]]]]]]];
      simpl in H; rewrite ?andb_false_r in H; try discriminate H.
    exists (String c1 (String c2 (String c3 (String c4 (String c5
              (String c6 (String c7 ""))))))), t.
    split; [reflexivity|].
    repeat (apply andb_true_iff in H as [?H H]).
    repeat match goal with
           | X : Ascii.eqb _ _ = true |- _ => apply Ascii.eqb_eq in X
           end.
    simpl. congruence.
  - intros (p & t & -> & Hp). now apply bearer_any_case.
Qed.

Lemma bearer_scheme_characterised_witness :
  has_bearer_scheme (Some "bEARer xyz") = true
  /\ ~ (exists p t, "Basic xyz" = p +:+ t /\ Py.lower p = "bearer ").
Proof.
  split.
  - apply bearer_scheme_characterised. exists "bEARer ", "xyz". now split.
  - intros H. apply bearer_scheme_characterised in H. discriminate H.
Defined.


(** X6: What follows the first word after the marker is ignored, and so is
    white space before that word. *)
Theorem bearer_token_first_word (p t rest : string) (c : ascii) :
  Py.lower p = "bearer " -> Py.is_word t = true -> Py.isspace c = true ->
  bearer_token (p +:+ t +:+ String c rest) = Ret t
  /\ bearer_token (p +:+ String c t) = Ret t.
Proof.
  intros Hp Hw Hc.
  assert (Hns : Py.no_space t = true) by (destruct t; [discriminate | exact Hw]).
  assert (Hne : "" +:+ t <> "") by (destruct t; [discriminate | discriminate]).
  split.
  - rewrite (proj2 (bearer_any_case p _ Hp)). unfold Py.split.
    rewrite (split_from_word_space t "" rest c Hns Hc Hne). reflexivity.
  - rewrite (proj2 (bearer_any_case p _ Hp)). unfold Py.split. simpl.
    rewrite Hc. fold (Py.split t). now rewrite split_word.
Qed.

Lemma bearer_token_first_word_witness :
  bearer_token "BEARER abc.def trailing words" = Ret "abc.def"
  /\ bearer_token "BEARER  abc.def" = Ret "abc.def".
Proof.
  exact (bearer_token_first_word "BEARER " "abc.def" "trailing words" " "
           eq_refl eq_refl eq_refl).
Defined.

(** ** What the handlers write *)

Section Frame.

Lemma preserves_ret {A} (a : A) : preserves_store (ret a).
Proof. intros w. now split. Qed.

Lemma preserves_raise {A} (e : exn) : preserves_store (@raise A e).
Proof. intros w. now split. Qed.

Lemma preserves_lift {A} (o : outcome A) : preserves_store (lift o).
Proof. intros w. now split. Qed.

Lemma preserves_bind {A B} (m : M A) (k : A -> M B) :
  preserves_store m -> (forall a, preserves_store (k a)) ->
  preserves_store (bind m k).
Proof.
  intros Hm Hk w. unfold bind. specialize (Hm w).
  destruct (m w) as [[a|e] w1]; simpl in Hm.
  - destruct Hm as [H3 H4]. destruct (Hk a w1) as [H1 H2]. split; congruence.
  - exact Hm.
Qed.

Lemma preserves_read_time (E : env) : preserves_store (read_time E).
Proof. intros w. now split. Qed.

Lemma preserves_read_utcnow (E : env) : preserves_store (read_utcnow E).
Proof. intros w. now split. Qed.

Lemma preserves_draw_salt (E : env) : preserves_store (draw_salt E).
Proof. intros w. now split. Qed.

Lemma preserves_get_documents (name : string) (flt : list (string * string))
  (n : nat) : preserves_store (Store.get_documents name flt n).
Proof. intros w. now split. Qed.

Lemma preserves_get_documents_any (E : env) (name : string)
  (flt : list (string * value)) (n : nat) :
  preserves_store (Store.get_documents_any E name flt n).
Proof. intros w. now split. Qed.

End Frame.

Create HintDb frame.

#[local] Hint Resolve preserves_ret preserves_raise preserves_lift
  preserves_read_time preserves_read_utcnow preserves_draw_salt
  preserves_get_documents preserves_get_documents_any : frame.

(** One step of a proof that a handler writes nothing: open a sequence,
    or take a branch. *)
Ltac frame_step :=
  match goal with
  | |- preserves_store (bind _ _) => apply preserves_bind; [|intros ?]
  | |- preserves_store (match ?x with _ => _ end) => destruct x
  | |- preserves_store (if ?b then _ else _) => destruct b
  | |- preserves_store _ => solve [auto with frame]
  end.

Ltac frame := repeat frame_step.

Lemma preserves_int_time (E : env) : preserves_store (int_time E).
Proof. unfold int_time. frame. Qed.

Lemma preserves_create_token (E : env) (data : pydict) (m : option Z) :
  preserves_store (create_token E data m).
Proof. unfold create_token. frame. Qed.

Lemma preserves_decode_token (E : env) (token : string) :
  preserves_store (decode_token E token).
Proof. unfold decode_token. frame. Qed.

#[local] Hint Resolve preserves_int_time preserves_create_token
  preserves_decode_token : frame.

(** X7: Login, the authentication gate, the fetch of the allocation and the
    listing of the receipts never write to the store, whatever they are
    given and however they end. *)
Theorem read_handlers_preserve_store (E : env) :
  (forall payload, preserves_store (login E payload))
  /\ (forall authorization, preserves_store (get_current_user E authorization))
  /\ (forall user, preserves_store (get_allocation user))
  /\ (forall user, preserves_store (list_receipts user)).
Proof.
  split; [|split; [|split]]; intros x.
  - unfold login. frame.
  - unfold get_current_user. frame.
  - unfold get_allocation. frame.
  - unfold list_receipts. frame.
Qed.

(** X8: The gateway order never writes to the store: not when it fails, and
    not when the gateway has created the order. *)
Theorem razorpay_order_never_writes (E : env)
  (payload : RazorpayOrderRequest) (user : User) :
  preserves_store (create_razorpay_order E payload user).
Proof. unfold create_razorpay_order. frame. Qed.

Lemma appends_nothing (coll : string) (w w' : world) :
  db w' = db w -> appends_at_most_one coll w w'.
Proof.
  intros Hdb. exists []. split; [simpl; lia|]. intros name.
  unfold Store.collection. rewrite Hdb.
  destruct (bool_decide _); now rewrite app_nil_r.
Qed.

Lemma appends_inserted (E : env) (coll : string) (data : pydict)
  (w0 w : world) :
  db w = db w0 ->
  appends_at_most_one coll w0 (inserted E coll data w).
Proof.
  intros Hdb.
  exists [ {| doc_id := next_id w; doc_fields := stamped E w data |} ].
  split; [simpl; lia|]. intros name.
  assert (Hsame : Store.collection w name = Store.collection w0 name)
    by (unfold Store.collection; now rewrite Hdb).
  rewrite <- Hsame. case_bool_decide as Hname.
  - subst name. apply collection_inserted.
  - rewrite app_nil_r. apply collection_inserted_other. congruence.
Qed.

(** What a registration does to the store, in its three cases. *)
Lemma register_cases (E : env) (payload : UserRegister) (w : world) :
  after_register E payload w = w
  \/ after_register E payload w = drawn w
  \/ exists h, after_register E payload w
               = inserted E "user" (user_doc payload h) (drawn w).
Proof.
  unfold after_register.
  destruct (users_with w (reg_email payload)) as [|u l] eqn:Hu.
  - destruct (bcrypt_hash E (reg_password payload) (salts E (draws w)))
      as [h|e] eqn:Hh.
    + right. right. exists h. now rewrite (register_fresh E payload w h Hu Hh).
    + right. left. now rewrite (register_hash_fails E payload w e Hu Hh).
  - left. rewrite register_taken; [reflexivity|]. now rewrite Hu.
Qed.

(** X9: The three handlers that write are append-only: each adds at most one
    document, at the end of its own collection, and changes no document
    that was there and no other collection. *)
Theorem write_handlers_append_one (E : env) (w : world) :
  (forall payload,
     appends_at_most_one "user" w (after_register E payload w))
  /\ (forall payload user,
        appends_at_most_one "allocation" w (after_save E payload user w))
  /\ (forall payload user,
        appends_at_most_one "receipt" w (after_pay_demo E payload user w)).
Proof.
  split; [|split].
  - intros payload.
    destruct (register_cases E payload w) as [-> | [-> | [h ->]]].
    + now apply appends_nothing.
    + now apply appends_nothing.
    + now apply appends_inserted.
  - intros payload user. unfold after_save. rewrite save_allocation_run.
    destruct (sectors_storable _);
      [now apply appends_inserted | now apply appends_nothing].
  - intros payload user. unfold after_pay_demo. rewrite pay_demo_run.
    destruct (payment_error _);
      [now apply appends_nothing | now apply appends_inserted].
Qed.

(** ** Invariants of the store *)

Lemma well_formed_same_db (w w' : world) :
  db w' = db w -> well_formed w' = well_formed w.
Proof.
  intros H. unfold well_formed, users_well_formed, receipts_well_formed,
    Store.collection. now rewrite H.
Qed.

Lemma well_formed_inserted_other (E : env) (coll : string) (data : pydict)
  (w : world) :
  coll <> "user" -> coll <> "receipt" ->
  well_formed (inserted E coll data w) = well_formed w.
Proof.
  intros H1 H2. unfold well_formed, users_well_formed, receipts_well_formed.
  now rewrite !collection_inserted_other.
Qed.

(** X10: The empty store is well formed, and every handler keeps the store
    well formed: every user record has its email, name and tax id as
    strings, and every receipt record reads back as a receipt. *)
Theorem well_formed_kept (E : env) (w : world) :
  well_formed empty_world = true
  /\ (well_formed w = true ->
      (forall payload, well_formed (after_register E payload w) = true)
      /\ (forall payload user,
            well_formed (after_save E payload user w) = true)
      /\ (forall payload user,
            well_formed (after_pay_demo E payload user w) = true)
      /\ (forall A (m : M A),
            preserves_store m -> well_formed (m w).2 = true)).
Proof.
  split; [reflexivity|]. intros Hw. split; [|split; [|split]].
  - intros payload.
    destruct (register_cases E payload w) as [-> | [-> | [h ->]]];
      [exact Hw | exact Hw |].
    unfold well_formed in *. apply andb_true_iff in Hw as [Hu Hr].
    apply andb_true_iff. split.
    + unfold users_well_formed. rewrite collection_inserted, forallb_app.
      apply andb_true_iff. split; [exact Hu | reflexivity].
    + unfold receipts_well_formed.
      rewrite collection_inserted_other by discriminate. exact Hr.
  - intros payload user. unfold after_save. rewrite save_allocation_run.
    destruct (sectors_storable _); simpl;
      [now rewrite well_formed_inserted_other | exact Hw].
  - intros payload user. unfold after_pay_demo. rewrite pay_demo_run.
    destruct (payment_error _); simpl; [exact Hw|].
    unfold well_formed in *. apply andb_true_iff in Hw as [Hu Hr].
    apply andb_true_iff. split.
    + unfold users_well_formed.
      rewrite collection_inserted_other by discriminate. exact Hu.
    + unfold receipts_well_formed. rewrite collection_inserted, forallb_app.
      apply andb_true_iff. split; [exact Hr|]. simpl.
      now rewrite receipt_of_stored.
  - intros A m Hm. rewrite (well_formed_same_db w); [exact Hw|]. apply Hm.
Qed.

Lemma well_formed_kept_witness :
  well_formed empty_world = true
  /\ well_formed (after_pay_demo Sample.E demo_payload Sample.alice
                    (after_register Sample.E Sample.alice_form empty_world))
     = true.
Proof.
  split; [reflexivity|].
  destruct (well_formed_kept Sample.E empty_world) as [H0 H1].
  destruct (H1 H0) as (Hreg & _).
  destruct (well_formed_kept Sample.E
              (after_register Sample.E Sample.alice_form empty_world))
    as [_ H2].
  destruct (H2 (Hreg Sample.alice_form)) as (_ & _ & Hpay & _).
  apply Hpay.
Defined.

(** ** The listing of receipts *)

Lemma list_receipts_loop_spec (docs : list document)
  (acc items : list Receipt) :
  list_receipts_loop docs acc = Ret items
  <-> exists new,
        items = (acc ++ new)%list
        /\ Forall2 (fun d r => receipt_of_document d = Ret r) docs new.
Proof.
  revert acc. induction docs as [|d docs IH]; intros acc; simpl.
  - split.
    + intros [= <-]. exists []. split; [now rewrite app_nil_r | constructor].
    + intros (new & -> & H). inversion H. now rewrite app_nil_r.
  - destruct (receipt_of_document d) as [r|e] eqn:Hd.
    + rewrite IH. split.
      * intros (new & -> & H). exists (r :: new).
        split; [now rewrite <- app_assoc | now constructor].
      * intros (new & -> & H). inversion H as [|? r' ? new' Hr Hrest]; subst.
        assert (r' = r) as -> by congruence.
        exists new'. split; [now rewrite <- app_assoc | exact Hrest].
    + split; [discriminate|].
      intros (new & _ & H). inversion H; congruence.
Qed.

Lemma list_receipts_loop_total (docs : list document) (acc : list Receipt) :
  forallb (fun d => is_ret (receipt_of_document d)) docs = true ->
  exists items, list_receipts_loop docs acc = Ret items.
Proof.
  revert acc. induction docs as [|d docs IH]; intros acc H; simpl in *.
  - eauto.
  - apply andb_true_iff in H as [Hd H].
    destruct (receipt_of_document d); [now apply IH | discriminate].
Qed.

Lemma receipt_email (d : document) (r : Receipt) (e : string) :
  doc_fields d !! "user_email" = Some (VStr e) ->
  receipt_of_document d = Ret r -> receipt_user_email r = e.
Proof.
  unfold receipt_of_document, getitem, make_Receipt, obind.
  intros ->. simpl.
  repeat case_match; try discriminate. intros [= <-]. simpl. congruence.
Qed.

Lemma forallb_sublist {A} (f : A -> bool) (l k : list A) :
  l `sublist_of` k -> forallb f k = true -> forallb f l = true.
Proof.
  induction 1 as [|x l k _ IH|x l k _ IH]; simpl; [auto| |].
  - intros H. apply andb_true_iff in H as [-> H]. now apply IH.
  - intros H. apply andb_true_iff in H as [_ H]. now apply IH.
Qed.

(** X11: In a well-formed store the listing always answers; it answers with one
    receipt for each of the first hundred receipt records of the user, in
    the order of the store, all of them receipts of that user, and leaves
    the world as it was. *)
Theorem listing_of_well_formed_store (user : User) (w : world) :
  receipts_well_formed w = true ->
  exists listing : ReceiptsResponse,
    list_receipts user w = (Ret listing, w)
    /\ Forall2 (fun d r => receipt_of_document d = Ret r)
         (take 100 (receipts_of w (user_email user))) (items listing)
    /\ length (items listing) <= 100
    /\ Forall (fun r => receipt_user_email r = user_email user)
         (items listing).
Proof.
  intros Hwf. rewrite list_receipts_run.
  change (Store.limit_to 100 (receipts_of w (user_email user)))
    with (take 100 (receipts_of w (user_email user))).
  set (docs := take 100 (receipts_of w (user_email user))).
  assert (Hsub : docs `sublist_of` Store.collection w "receipt").
  { transitivity (receipts_of w (user_email user));
      [apply sublist_take | apply find_sublist]. }
  destruct (list_receipts_loop_total docs []
              (forallb_sublist _ _ _ Hsub Hwf)) as [its Hits].
  rewrite Hits. exists {| items := its |}. split; [reflexivity|].
  apply list_receipts_loop_spec in Hits as (new & -> & H2). simpl.
  split; [exact H2|]. split.
  - rewrite <- (Forall2_length _ _ _ H2). subst docs.
    rewrite length_take. lia.
  - assert (Hm : Forall (fun d => doc_fields d !! "user_email"
                                  = Some (VStr (user_email user))) docs).
    { apply Forall_forall. intros d Hd. apply (matches_one "user_email").
      apply (find_matches w "receipt"). apply list_elem_of_In.
      eapply subseteq_take. exact Hd. }
    clear -H2 Hm. induction H2 as [|d r docs new Hr _ IH]; [constructor|].
    inversion Hm; subst. constructor; [|now apply IH].
    now apply (receipt_email d).
Qed.

Lemma listing_of_well_formed_store_witness :
  exists listing : ReceiptsResponse,
    list_receipts Sample.alice world_with_100_receipts
    = (Ret listing, world_with_100_receipts)
    /\ Forall2 (fun d r => receipt_of_document d = Ret r)
         (take 100 (receipts_of world_with_100_receipts
                      (user_email Sample.alice)))
         (items listing)
    /\ length (items listing) <= 100
    /\ Forall (fun r => receipt_user_email r = user_email Sample.alice)
         (items listing).
Proof.
  apply listing_of_well_formed_store. vm_compute. reflexivity.
Defined.

Lemma receipt_without_amount (d : document) (email : string) :
  doc_fields d !! "user_email" = Some (VStr email) ->
  doc_fields d !! "amount" = None ->
  receipt_of_document d = Raise (KeyError "amount").
Proof.
  intros Hemail Hnone. unfold receipt_of_document, getitem.
  now rewrite Hemail, Hnone.
Qed.

(** X12: One receipt record without an amount makes the whole listing
    fail: when such a record is among the first hundred receipt records
    of the user, the listing ends with an exception, returns no partial
    listing and leaves the world as it was; when the record is the first
    of them, the exception is [KeyError] on "amount". *)
Theorem listing_fails_without_amount (user : User) (w : world)
  (before rest : list document) (d : document) :
  take 100 (receipts_of w (user_email user)) = (before ++ d :: rest)%list ->
  doc_fields d !! "amount" = None ->
  (exists e, list_receipts user w = (Raise e, w))
  /\ (before = [] ->
      list_receipts user w = (Raise (KeyError "amount"), w)).
Proof.
  intros Hdocs Hnone.
  assert (Hd : receipt_of_document d = Raise (KeyError "amount")).
  { apply (receipt_without_amount d (user_email user)); [|exact Hnone].
    apply (matches_one "user_email"), (find_matches w "receipt").
    apply list_elem_of_In. eapply subseteq_take.
    fold (receipts_of w (user_email user)). rewrite Hdocs.
    apply elem_of_app. right. now left. }
  rewrite list_receipts_run.
  change (Store.limit_to 100 (receipts_of w (user_email user)))
    with (take 100 (receipts_of w (user_email user))).
  rewrite Hdocs, list_receipts_loop_app. split.
  - destruct (list_receipts_loop before []) as [its|e]; [|now exists e].
    simpl. rewrite Hd. now exists (KeyError "amount").
  - intros ->. simpl. now rewrite Hd.
Qed.

Lemma listing_fails_without_amount_witness :
  list_receipts Sample.alice world_with_broken_receipt
  = (Raise (KeyError "amount"), world_with_broken_receipt).
Proof.
  apply (listing_fails_without_amount Sample.alice
           world_with_broken_receipt []
           []
           {| doc_id := 0;
              doc_fields := {[ "user_email" := VStr "alice@example.com" ]} |});
    reflexivity.
Defined.

(** X13: A record that holds the owner and the amount and nothing else is
    listed with the defaults: currency "INR", regime "new", an empty
    allocation, payment method "demo" and no reference. *)
Theorem receipt_defaults (d : document) (email : string) (amount : Z) :
  doc_fields d !! "user_email" = Some (VStr email) ->
  doc_fields d !! "amount" = Some (VInt amount) ->
  doc_fields d !! "currency" = None ->
  doc_fields d !! "regime" = None ->
  doc_fields d !! "allocation" = None ->
  doc_fields d !! "payment_method" = None ->
  doc_fields d !! "reference" = None ->
  receipt_of_document d
  = Ret {| receipt_id := Some (str_oid (doc_id d));
           receipt_user_email := email;
           receipt_amount := amount;
           receipt_currency := "INR";
           receipt_regime := "new";
           receipt_allocation := ∅;
           receipt_payment_method := "demo";
           receipt_reference := None |}.
Proof.
  intros H1 H2 H3 H4 H5 H6 H7.
  unfold receipt_of_document, getitem, get, get_default.
  rewrite H1, H2, H3, H4, H5, H6, H7. reflexivity.
Qed.

Lemma receipt_defaults_witness :
  receipt_of_document
    {| doc_id := 7;
       doc_fields := <["amount" := VInt 250]>
                       {[ "user_email" := VStr "alice@example.com" ]} |}
  = Ret {| receipt_id := Some (str_oid 7);
           receipt_user_email := "alice@example.com";
           receipt_amount := 250;
           receipt_currency := "INR";
           receipt_regime := "new";
           receipt_allocation := ∅;
           receipt_payment_method := "demo";
           receipt_reference := None |}.
Proof.
  apply (receipt_defaults
           {| doc_id := 7;
              doc_fields := <["amount" := VInt 250]>
                              {[ "user_email" := VStr "alice@example.com" ]} |});
    reflexivity.
Defined.

(** ** The authentication gate, for every header *)

(** What the gate does with a header that passes the guard. *)
Lemma get_current_user_run (E : env) (s : string) (w : world) :
  has_bearer_scheme (Some s) = true ->
  get_current_user E (Some s) w
  = match bearer_token s with
    | Raise e => (Raise e, w)
    | Ret token =>
        match jwt_decode E token (JWT_SECRET E) (utcnow E (ticks w)) with
        | Ret payload =>
            if truthy (get payload "sub")
            then match Store.limit_to 1
                         (Store.find_any E w "user"
                            [("email", get payload "sub")])
                 with
                 | [] => (Raise UnknownSubject, tick w)
                 | u :: _ => (user_of_document u, tick w)
                 end
            else (Raise MalformedClaims, tick w)
        | Raise ExpiredSignatureError => (Raise ExpiredToken, tick w)
        | Raise InvalidTokenError => (Raise InvalidToken, tick w)
        | Raise e => (Raise e, tick w)
        end
    end.
Proof.
  intros Hs.
  unfold get_current_user, decode_token, bind, lift, read_utcnow, ret, raise.
  rewrite Hs. change (negb true) with false.
  change (default "" (Some s)) with s. cbv beta iota.
  destruct (bearer_token s) as [token|e]; [|reflexivity].
  destruct (jwt_decode E token (JWT_SECRET E) (utcnow E (ticks w)))
    as [payload|[]]; try reflexivity.
  destruct (truthy (get payload "sub")); [|reflexivity].
  change (negb true) with false. unfold Store.get_documents_any.
  cbv beta iota.
  change (Store.find_any E {| db := db w; next_id := next_id w;
                              ticks := S (ticks w); draws := draws w |})
    with (Store.find_any E w).
  destruct (Store.limit_to 1 _); reflexivity.
Qed.

Lemma limit_one_head {A} (l : list A) (x : A) (k : list A) :
  Store.limit_to 1 l = x :: k -> exists l', l = x :: l'.
Proof. destruct l; simpl; [discriminate | intros [= -> _]; eauto]. Qed.

(** Whatever the filter, what a query finds are documents of the
    collection. *)
Lemma find_any_in (E : env) (w : world) (name : string)
  (flt : list (string * value)) (d : document) :
  In d (Store.find_any E w name flt) -> In d (Store.collection w name).
Proof.
  unfold Store.find_any, Store.find.
  destruct (Store.string_filter flt); intros H;
    now apply List.filter_In in H.
Qed.

Lemma user_of_document_id (u : document) (user : User) :
  user_of_document u = Ret user ->
  user_id user = Some (str_oid (doc_id u)).
Proof.
  unfold user_of_document, getitem, make_User, obind, as_str. simpl.
  destruct (doc_fields u !! "email") as [[]|]; try discriminate;
    destruct (doc_fields u !! "name") as [[]|]; try discriminate;
    destruct (doc_fields u !! "pan") as [[]|]; try discriminate.
  now intros [= <-].
Qed.

(** X15: The gate never invents a user: when it resolves one, the
    header had a token that the library accepted at the time of the
    request and whose subject is not empty, and the id of the user is the
    id of a record of the user collection; when the subject is a string,
    it is the email that this record holds.  The world only had its clock
    read. *)
Theorem resolved_user_is_stored (E : env) (authorization : option string)
  (w w' : world) (user : User) :
  get_current_user E authorization w = (Ret user, w') ->
  exists s token payload u,
    authorization = Some s
    /\ bearer_token s = Ret token
    /\ jwt_decode E token (JWT_SECRET E) (utcnow E (ticks w)) = Ret payload
    /\ truthy (get payload "sub") = true
    /\ In u (Store.collection w "user")
    /\ (forall email, payload !! "sub" = Some (VStr email) ->
        doc_fields u !! "email" = Some (VStr email))
    /\ user_id user = Some (str_oid (doc_id u))
    /\ w' = tick w.
Proof.
  intros Hrun.
  destruct (has_bearer_scheme authorization) eqn:Hs.
  2:{ unfold get_current_user in Hrun. rewrite Hs in Hrun. discriminate. }
  destruct authorization as [s|]; [|discriminate].
  rewrite (get_current_user_run E s w Hs) in Hrun.
  destruct (bearer_token s) as [token|] eqn:Htok; [|discriminate].
  destruct (jwt_decode E token (JWT_SECRET E) (utcnow E (ticks w)))
    as [payload|[]] eqn:Hdec; try discriminate.
  destruct (truthy (get payload "sub")) eqn:Htruthy; [|discriminate].
  destruct (Store.limit_to 1 _) as [|u k] eqn:Hu; [discriminate|].
  injection Hrun as Huser <-.
  apply limit_one_head in Hu as [l' Hu].
  assert (Hfound : In u (Store.find_any E w "user"
                           [("email", get payload "sub")]))
    by (rewrite Hu; now left).
  exists s, token, payload, u.
  repeat split; try assumption; try reflexivity.
  - exact (find_any_in E w "user" _ u Hfound).
  - intros email Hsub. unfold get, get_default in Hfound.
    rewrite Hsub in Hfound.
    change (Store.find_any E w "user" [("email", default VNone (Some (VStr email)))])
      with (Store.find w "user" [("email", email)]) in Hfound.
    now apply (matches_one "email"), (find_matches w "user").
  - now apply user_of_document_id.
Qed.

Lemma resolved_user_is_stored_witness :
  exists s token payload u,
    Some "Bearer tok.alice@example.com" = Some s
    /\ bearer_token s = Ret token
    /\ jwt_decode Sample.E token (JWT_SECRET Sample.E)
         (utcnow Sample.E
            (ticks (after_register Sample.E Sample.alice_form empty_world)))
       = Ret payload
    /\ truthy (get payload "sub") = true
    /\ In u (Store.collection
               (after_register Sample.E Sample.alice_form empty_world) "user")
    /\ (forall email, payload !! "sub" = Some (VStr email) ->
        doc_fields u !! "email" = Some (VStr email))
    /\ user_id Sample.alice = Some (str_oid (doc_id u))
    /\ tick (after_register Sample.E Sample.alice_form empty_world)
       = tick (after_register Sample.E Sample.alice_form empty_world).
Proof.
  apply (resolved_user_is_stored Sample.E
           (Some "Bearer tok.alice@example.com")
           (after_register Sample.E Sample.alice_form empty_world)).
  vm_compute. reflexivity.
Defined.

(** X16: From registration to an authenticated request: after a registration
    with a fresh email, a login with the same password returns the token
    that the library signs, and that token, presented in a bearer header
    while the library accepts it with the email as its subject, resolves
    to the registered user. *)
Theorem register_login_resolve (E : env) (form : UserRegister) (w : world)
  (h token : string) (payload : pydict) :
  users_with w (reg_email form) = [] ->
  bcrypt_hash E (reg_password form) (salts E (draws w)) = Ret h ->
  verify_password E (reg_password form) h = Ret true ->
  (datetime_min <= default_expiry E (after_register E form w)
   <= datetime_max)%Z ->
  jwt_encode E
    (login_claims E {| login_email := reg_email form;
                       login_password := reg_password form |}
       (after_register E form w))
    (JWT_SECRET E) = Ret token ->
  Py.is_word token = true ->
  jwt_decode E token (JWT_SECRET E)
    (utcnow E (ticks (tick (after_register E form w)))) = Ret payload ->
  payload !! "sub" = Some (VStr (reg_email form)) ->
  reg_email form <> "" ->
  login E {| login_email := reg_email form;
             login_password := reg_password form |}
    (after_register E form w)
  = (Ret {| access_token := token; token_type := "bearer" |},
     tick (after_register E form w))
  /\ get_current_user E (Some ("Bearer " +:+ token))
       (tick (after_register E form w))
     = (Ret {| user_id := Some (str_oid (next_id w));
               user_email := reg_email form;
               user_name := reg_name form;
               user_pan := reg_pan form |},
        tick (tick (after_register E form w))).
Proof.
  intros Hfresh Hhash Hverify Hrange Hsign Hword Hdec Hsub Hne.
  set (login_form := {| login_email := reg_email form;
                        login_password := reg_password form |}).
  assert (Hw1 : after_register E form w
                = inserted E "user" (user_doc form h) (drawn w))
    by (unfold after_register; now rewrite (register_fresh E form w h)).
  set (u := {| doc_id := next_id w;
               doc_fields := stamped E (drawn w) (user_doc form h) |}).
  assert (Hu : users_with (after_register E form w) (reg_email form) = [u])
    by (rewrite Hw1, users_after_register, Hfresh; reflexivity).
  split.
  - rewrite (login_found E login_form (after_register E form w) u [] Hu).
    replace (get_default (doc_fields u) "password_hash" (VStr ""))
      with (VStr h) by reflexivity.
    subst login_form. cbn [verify_stored login_password login_email].
    rewrite Hverify.
    unfold bind. rewrite create_token_default_run by exact Hrange.
    unfold login_claims, default_expiry in Hsign.
    cbn [login_email] in Hsign. rewrite Hsign. reflexivity.
  - destruct (bearer_any_case "Bearer " token eq_refl) as [Hs Htok].
    rewrite (get_current_user_run E _ _ Hs), Htok, (split_word _ Hword).
    change (index [token] 0) with (Ret token). cbv beta iota.
    rewrite Hdec.
    replace (get payload "sub") with (VStr (reg_email form))
      by (unfold get, get_default; now rewrite Hsub).
    replace (truthy (VStr (reg_email form))) with true
      by (destruct (reg_email form); [congruence | reflexivity]).
    change (Store.find_any E (tick (after_register E form w)) "user"
              [("email", VStr (reg_email form))])
      with (users_with (after_register E form w) (reg_email form)).
    rewrite Hu. reflexivity.
Qed.

Lemma register_login_resolve_witness :
  login Sample.E {| login_email := "alice@example.com";
                    login_password := "s3cret" |}
    (after_register Sample.E Sample.alice_form empty_world)
  = (Ret {| access_token := "tok.alice@example.com";
            token_type := "bearer" |},
     tick (after_register Sample.E Sample.alice_form empty_world))
  /\ get_current_user Sample.E (Some "Bearer tok.alice@example.com")
       (tick (after_register Sample.E Sample.alice_form empty_world))
     = (Ret Sample.alice,
        tick (tick (after_register Sample.E Sample.alice_form empty_world))).
Proof.
  refine (register_login_resolve Sample.E Sample.alice_form empty_world
            "$2b$12$c2FsdA$s3cret" "tok.alice@example.com"
            (<["sub" := VStr "alice@example.com"]> ∅)
            eq_refl eq_refl eq_refl _ eq_refl eq_refl eq_refl eq_refl _).
  - vm_compute. split; discriminate.
  - discriminate.
Defined.

(** ** Allocations, for every history *)

Lemma allocations_after_save_other (E : env) (payload : SaveAllocationRequest)
  (user : User) (w : world) (email : string) :
  user_email user <> email ->
  allocations_of (after_save E payload user w) email = allocations_of w email.
Proof.
  intros Hne. unfold after_save. rewrite save_allocation_run.
  destruct (sectors_storable _); [|reflexivity]. simpl.
  unfold allocations_of. rewrite find_inserted.
  replace (Store.matches _ _) with false; [now rewrite app_nil_r|].
  symmetry. apply not_true_is_false. intros Hm.
  apply matches_one in Hm. simpl in Hm.
  rewrite stamped_lookup in Hm by discriminate.
  rewrite lookup_insert_ne, lookup_insert_eq in Hm by discriminate.
  congruence.
Qed.

Lemma allocations_after_saves (E : env) (payloads : list SaveAllocationRequest)
  (user : User) (w : world) :
  exists new : list document,
    allocations_of (after_saves E payloads user w) (user_email user)
    = (allocations_of w (user_email user) ++ new)%list
    /\ length new
       = length (List.filter
                   (fun p => sectors_storable (save_sectors p)) payloads).
Proof.
  revert w. induction payloads as [|p ps IH]; intros w.
  - exists []. now rewrite app_nil_r.
  - destruct (IH (after_save E p user w)) as (new & Hnew & Hlen).
    unfold after_saves in *. simpl fold_left. rewrite Hnew.
    change (after_save E p user w) with (save_allocation E p user w).2.
    rewrite allocations_after_save. simpl List.filter.
    destruct (sectors_storable (save_sectors p)).
    + eexists (_ :: new). rewrite <- app_assoc. split; [reflexivity|].
      simpl. now rewrite Hlen.
    + exists new. rewrite app_nil_r. now split.
Qed.

(** X17: Saves accumulate: after any list of saves the user has one more
    allocation record for each save whose sector map the store can hold
    (a save with a key that holds U+0000 adds none), and the records that
    were there are still there, before the new ones. *)
Theorem saves_accumulate (E : env) (payloads : list SaveAllocationRequest)
  (user : User) (w : world) :
  length (allocations_of (after_saves E payloads user w) (user_email user))
  = length (allocations_of w (user_email user))
    + length (List.filter
                (fun p => sectors_storable (save_sectors p)) payloads)
  /\ allocations_of w (user_email user)
     `prefix_of`
     allocations_of (after_saves E payloads user w) (user_email user).
Proof.
  destruct (allocations_after_saves E payloads user w) as (new & -> & Hlen).
  split; [rewrite length_app; lia | now exists new].
Qed.

(** X18: Once a user has an allocation record, no save by anyone changes what
    the fetch returns for that user: the oldest record answers for ever. *)
Theorem first_allocation_is_final (E : env)
  (payload : SaveAllocationRequest) (saver user : User) (w : world) :
  allocations_of w (user_email user) <> [] ->
  (get_allocation user (after_save E payload saver w)).1
  = (get_allocation user w).1.
Proof.
  intros Hsome. rewrite !get_allocation_run. simpl.
  destruct (decide (user_email saver = user_email user)) as [Heq|Hne].
  - rewrite <- Heq in *. unfold after_save. rewrite allocations_after_save.
    destruct (allocations_of w (user_email saver)); [contradiction|].
    reflexivity.
  - now rewrite allocations_after_save_other.
Qed.

Lemma first_allocation_is_final_witness :
  (get_allocation Sample.alice
     (after_save Sample.E {| save_sectors := {[ "defense" := float_25 ]} |}
        Sample.alice
        (after_save Sample.E {| save_sectors := {[ "health" := float_100 ]} |}
           Sample.alice empty_world))).1
  = (get_allocation Sample.alice
       (after_save Sample.E {| save_sectors := {[ "health" := float_100 ]} |}
          Sample.alice empty_world)).1.
Proof.
  apply first_allocation_is_final. vm_compute. discriminate.
Defined.

(** ** Users do not see each other's records *)

Lemma receipts_after_pay_demo_other (E : env) (payload : DemoPayRequest)
  (user : User) (w : world) (email : string) :
  user_email user <> email ->
  receipts_of (after_pay_demo E payload user w) email = receipts_of w email.
Proof.
  intros Hne. unfold after_pay_demo. rewrite pay_demo_run.
  destruct (payment_error _); [reflexivity|]. simpl.
  unfold receipts_of. rewrite find_inserted.
  replace (Store.matches _ _) with false; [now rewrite app_nil_r|].
  symmetry. apply not_true_is_false. intros Hm.
  apply matches_one in Hm. simpl in Hm.
  rewrite stamped_lookup in Hm by discriminate. unfold receipt_fields in Hm.
  rewrite !lookup_insert_ne, lookup_insert_eq in Hm by discriminate.
  congruence.
Qed.

(** X19: A save or a payment by one user changes neither the allocation that
    another user fetches nor the receipts that another user lists. *)
Theorem other_users_unaffected (E : env) (actor other : User) (w : world) :
  user_email actor <> user_email other ->
  (forall payload,
     (get_allocation other (after_save E payload actor w)).1
     = (get_allocation other w).1
     /\ (list_receipts other (after_save E payload actor w)).1
        = (list_receipts other w).1)
  /\ (forall payload,
        (get_allocation other (after_pay_demo E payload actor w)).1
        = (get_allocation other w).1
        /\ (list_receipts other (after_pay_demo E payload actor w)).1
           = (list_receipts other w).1).
Proof.
  intros Hne. split; intros payload; split.
  - rewrite !get_allocation_run. simpl.
    now rewrite allocations_after_save_other.
  - rewrite !list_receipts_run. simpl. unfold after_save.
    rewrite save_allocation_run.
    destruct (sectors_storable _); [|reflexivity]. simpl.
    unfold receipts_of. now rewrite find_inserted_other.
  - rewrite !get_allocation_run. simpl. unfold after_pay_demo.
    rewrite pay_demo_run. destruct (payment_error _); [reflexivity|].
    simpl. unfold allocations_of. now rewrite find_inserted_other.
  - rewrite !list_receipts_run. simpl.
    now rewrite receipts_after_pay_demo_other.
Qed.

Lemma other_users_unaffected_witness :
  (get_allocation sample_bob
     (after_save Sample.E {| save_sectors := {[ "health" := float_100 ]} |}
        Sample.alice empty_world)).1
  = (get_allocation sample_bob empty_world).1
  /\ (list_receipts sample_bob
        (after_pay_demo Sample.E demo_payload Sample.alice empty_world)).1
     = (list_receipts sample_bob empty_world).1.
Proof.
  assert (Hne : user_email Sample.alice <> user_email sample_bob)
    by discriminate.
  destruct (other_users_unaffected Sample.E Sample.alice sample_bob
              empty_world Hne) as [Hsave Hpay].
  split; [apply Hsave | apply Hpay].
Defined.

(** ** Demo payments, for every request *)



(** X21: The reference of a demo payment is made of the whole seconds of the
    clock and of nothing else: two payments made within the same second,
    by any users and for any requests, get the same reference. *)
Theorem demo_references_collide (E : env) (p1 p2 : DemoPayRequest)
  (u1 u2 : User) (w : world) (r1 r2 : Receipt) :
  seconds_at E (after_pay_demo E p1 u1 w) = seconds_at E w ->
  (pay_demo E p1 u1 w).1 = Ret r1 ->
  (pay_demo E p2 u2 (after_pay_demo E p1 u1 w)).1 = Ret r2 ->
  receipt_reference r1 = receipt_reference r2.
Proof.
  intros Hsame H1 H2. rewrite pay_demo_run in H1, H2.
  destruct (payment_error p1); [discriminate|].
  destruct (payment_error p2); [discriminate|].
  simpl in H1, H2.
  injection H1 as <-. injection H2 as <-. simpl. now rewrite Hsame.
Qed.

Lemma demo_references_collide_witness :
  receipt_reference
    (demo_receipt None "alice@example.com" 1700000000)
  = receipt_reference
      {| receipt_id := None;
         receipt_user_email := "bob@example.com";
         receipt_amount := 1;
         receipt_currency := "INR";
         receipt_regime := "old";
         receipt_allocation := ∅;
         receipt_payment_method := "demo";
         receipt_reference := Some "DEMO-1700000000" |}.
Proof.
  apply (demo_references_collide frozen_clock_env demo_payload
           {| pay_amount := 1; pay_regime := "old"; pay_allocation := ∅ |}
           Sample.alice sample_bob empty_world);
    reflexivity.
Defined.

(** ** Gateway orders, when the gateway is configured *)

Section Gateway.

Variable E : env.
Variable payload : RazorpayOrderRequest.
Variable user : User.
Variable w : world.
Variables key_id key_secret : string.

Hypothesis Hid : environ E !! "RAZORPAY_KEY_ID" = Some key_id.
Hypothesis Hsecret : environ E !! "RAZORPAY_KEY_SECRET" = Some key_secret.
Hypothesis Hid_set : key_id <> "".
Hypothesis Hsecret_set : key_secret <> "".

Lemma razorpay_configured_run :
  create_razorpay_order E payload user w
  = match razorpay_import_error E with
    | Some e =>
        (Raise (HTTPException 500 ("Razorpay import failed: " +:+ e)), w)
    | None =>
        match razorpay_order_create E key_id key_secret
                (sent_order E payload w) with
        | Raise e => (Raise e, world_after_order payload w)
        | Ret order =>
            (obind (getitem order "id") (fun id =>
             obind (getitem order "amount") (fun amount =>
             obind (getitem order "currency") (fun currency =>
             make_RazorpayOrderResponse id amount currency
               (get_default order "status" (VStr "created"))))),
             world_after_order payload w)
        end
    end.
Proof.
  unfold create_razorpay_order, sent_order, world_after_order.
  rewrite Hid, Hsecret.
  replace (Py.truthy_opt_str (Some key_id)) with true
    by (destruct key_id; [congruence | reflexivity]).
  replace (Py.truthy_opt_str (Some key_secret)) with true
    by (destruct key_secret; [congruence | reflexivity]).
  change (negb true || negb true) with false. cbv beta iota.
  destruct (razorpay_import_error E); [reflexivity|].
  unfold bind at 1.
  destruct (Py.truthy_opt_str (rzp_receipt payload)).
  - unfold ret, bind, lift. simpl default.
    destruct (razorpay_order_create E key_id key_secret _); [|reflexivity].
    unfold getitem, obind.
    repeat (case_match; try reflexivity).
  - unfold bind at 1. rewrite int_time_run. unfold ret, bind, lift.
    simpl default.
    destruct (razorpay_order_create E key_id key_secret _); [|reflexivity].
    unfold getitem, obind.
    repeat (case_match; try reflexivity).
Qed.

End Gateway.

(** X22: With the keys set and the client library present, the answer of the
    gateway is passed on: the id, the amount and the currency of the
    order, and its status, or "created" when the order has none.  The
    gateway is called with the two keys and with the request built from
    the payload. *)
Theorem razorpay_order_created (E : env) (payload : RazorpayOrderRequest)
  (user : User) (w : world) (key_id key_secret : string) (order : pydict)
  (id currency : string) (amount : Z) :
  environ E !! "RAZORPAY_KEY_ID" = Some key_id ->
  environ E !! "RAZORPAY_KEY_SECRET" = Some key_secret ->
  key_id <> "" -> key_secret <> "" ->
  razorpay_import_error E = None ->
  razorpay_order_create E key_id key_secret (sent_order E payload w)
  = Ret order ->
  order !! "id" = Some (VStr id) ->
  order !! "amount" = Some (VInt amount) ->
  order !! "currency" = Some (VStr currency) ->
  (order !! "status" = None ->
   create_razorpay_order E payload user w
   = (Ret {| rzp_order_id := id; rzp_order_amount := amount;
             rzp_order_currency := currency;
             rzp_order_status := "created" |},
      world_after_order payload w))
  /\ (forall status, order !! "status" = Some (VStr status) ->
      create_razorpay_order E payload user w
      = (Ret {| rzp_order_id := id; rzp_order_amount := amount;
                rzp_order_currency := currency;
                rzp_order_status := status |},
         world_after_order payload w)).
Proof.
  intros Hid Hsecret Hid_set Hsecret_set Himport Hcall H1 H2 H3.
  pose proof (razorpay_configured_run E payload user w key_id key_secret
                Hid Hsecret Hid_set Hsecret_set) as Hrun.
  rewrite Himport, Hcall in Hrun. unfold getitem in Hrun.
  rewrite H1, H2, H3 in Hrun. simpl in Hrun.
  split.
  - intros Hnone. rewrite Hrun. unfold get_default. rewrite Hnone.
    reflexivity.
  - intros status Hstatus. rewrite Hrun. unfold get_default.
    rewrite Hstatus. reflexivity.
Qed.

Lemma razorpay_order_created_witness :
  create_razorpay_order gateway_env
    {| rzp_amount := 50000; rzp_currency := "INR";
       rzp_receipt := None; rzp_notes := None |}
    Sample.alice empty_world
  = (Ret {| rzp_order_id := "order_1"; rzp_order_amount := 50000;
            rzp_order_currency := "INR"; rzp_order_status := "created" |},
     tick empty_world).
Proof.
  refine (proj1 (razorpay_order_created gateway_env
            {| rzp_amount := 50000; rzp_currency := "INR";
               rzp_receipt := None; rzp_notes := None |}
            Sample.alice empty_world "rzp_test" "secret"
            (<["currency" := VStr "INR"]>
               (<["amount" := VInt 50000]> (<["id" := VStr "order_1"]> ∅)))
            "order_1" "INR" 50000
            eq_refl eq_refl _ _ eq_refl eq_refl eq_refl eq_refl eq_refl)
          eq_refl); discriminate.
Defined.

(** X23: With the keys set, the other ways the order request can end: a client
    library that cannot be imported gives a 500 that quotes the import
    error; an exception of the gateway leaves the handler as it is, not
    wrapped; and an answer of the gateway without an id gives a
    [KeyError]. *)
Theorem razorpay_order_failures (E : env) (payload : RazorpayOrderRequest)
  (user : User) (w : world) (key_id key_secret : string) :
  environ E !! "RAZORPAY_KEY_ID" = Some key_id ->
  environ E !! "RAZORPAY_KEY_SECRET" = Some key_secret ->
  key_id <> "" -> key_secret <> "" ->
  (forall msg, razorpay_import_error E = Some msg ->
     create_razorpay_order E payload user w
     = (Raise (HTTPException 500 ("Razorpay import failed: " +:+ msg)), w))
  /\ (forall e, razorpay_import_error E = None ->
        razorpay_order_create E key_id key_secret (sent_order E payload w)
        = Raise e ->
        create_razorpay_order E payload user w
        = (Raise e, world_after_order payload w))
  /\ (forall order, razorpay_import_error E = None ->
        razorpay_order_create E key_id key_secret (sent_order E payload w)
        = Ret order ->
        order !! "id" = None ->
        create_razorpay_order E payload user w
        = (Raise (KeyError "id"), world_after_order payload w)).
Proof.
  intros Hid Hsecret Hid_set Hsecret_set.
  pose proof (razorpay_configured_run E payload user w key_id key_secret
                Hid Hsecret Hid_set Hsecret_set) as Hrun.
  split; [|split].
  - intros msg Himport. now rewrite Hrun, Himport.
  - intros e Himport Hcall. now rewrite Hrun, Himport, Hcall.
  - intros order Himport Hcall Hnone. rewrite Hrun, Himport, Hcall.
    unfold getitem. now rewrite Hnone.
Qed.

Lemma razorpay_order_failures_witness :
  create_razorpay_order refusing_gateway_env
    {| rzp_amount := 50000; rzp_currency := "INR";
       rzp_receipt := Some "r-1"; rzp_notes := None |}
    Sample.alice empty_world
  = (Raise (GatewayError "bad request"), empty_world).
Proof.
  refine (proj1 (proj2 (razorpay_order_failures refusing_gateway_env
            {| rzp_amount := 50000; rzp_currency := "INR";
               rzp_receipt := Some "r-1"; rzp_notes := None |}
            Sample.alice empty_world
            "rzp_test" "secret" eq_refl eq_refl _ _))
          (GatewayError "bad request") eq_refl eq_refl); discriminate.
Defined.

(** ** Tokens, for every lifetime *)

(** X24: With a lifetime of [m] minutes that the calendar can hold, the token
    is the signed form of the claims with the expiry set to the issue
    time plus [m] minutes: an expiry among the claims is replaced, every
    other claim is kept, and a lifetime that is zero or negative is
    signed all the same. *)
Theorem create_token_lifetime (E : env) (data : pydict) (m : Z) (w : world) :
  (-999999999 <= m * us_per_minute / us_per_day <= 999999999)%Z ->
  (datetime_min <= utcnow E (ticks w) + m * us_per_minute <= datetime_max)%Z ->
  exists claims : pydict,
    create_token E data (Some m) w
    = (jwt_encode E claims (JWT_SECRET E), tick w)
    /\ claims !! "exp"
       = Some (VDatetime (utcnow E (ticks w) + m * us_per_minute))
    /\ (forall k, k <> "exp" -> claims !! k = data !! k).
Proof.
  intros [Hd1 Hd2] [Hr1 Hr2].
  exists (<["exp" := VDatetime (utcnow E (ticks w) + m * us_per_minute)]> data).
  split; [|split].
  - unfold create_token, bind, lift, read_utcnow. simpl default.
    unfold timedelta_minutes. apply Z.leb_le in Hd1, Hd2. rewrite Hd1, Hd2.
    simpl andb. cbv iota. unfold datetime_add.
    apply Z.leb_le in Hr1, Hr2. rewrite Hr1, Hr2. reflexivity.
  - apply lookup_insert_eq.
  - intros k Hk. apply lookup_insert_ne. congruence.
Qed.

Lemma create_token_lifetime_witness :
  exists claims : pydict,
    create_token Sample.E {[ "exp" := VInt 0 ]} (Some (-5)%Z) empty_world
    = (jwt_encode Sample.E claims (JWT_SECRET Sample.E), tick empty_world)
    /\ claims !! "exp"
       = Some (VDatetime (utcnow Sample.E (ticks empty_world)
                          + -5 * us_per_minute))
    /\ (forall k, k <> "exp" ->
        claims !! k = ({[ "exp" := VInt 0 ]} : pydict) !! k).
Proof.
  apply create_token_lifetime; vm_compute; split; discriminate.
Defined.

(** X25: A lifetime that takes the expiry past the last instant of the
    calendar makes the issuance fail with [OverflowError]: no token is
    signed. *)
Theorem create_token_overflow (E : env) (data : pydict) (m : Z) (w : world) :
  (datetime_max < utcnow E (ticks w) + m * us_per_minute)%Z ->
  create_token E data (Some m) w = (Raise OverflowError, tick w).
Proof.
  intros Hover. unfold create_token, bind, lift, read_utcnow. simpl default.
  unfold timedelta_minutes.
  destruct ((-999999999 <=? m * us_per_minute / us_per_day)
            && (m * us_per_minute / us_per_day <=? 999999999))%Z;
    [|reflexivity].
  cbv iota. unfold datetime_add.
  apply Z.leb_gt in Hover. rewrite Hover, andb_false_r. reflexivity.
Qed.

Lemma create_token_overflow_witness :
  create_token Sample.E ∅ (Some 5000000000000%Z) empty_world
  = (Raise OverflowError, tick empty_world).
Proof.
  apply create_token_overflow. vm_compute. reflexivity.
Defined.

(** ** The failures of the gate, one by one *)

(** X26: For a header that passes the guard and has a token: a token that the
    library finds expired ends in [ExpiredToken]; one that it finds
    invalid, in [InvalidToken]; an accepted token without a subject, or
    with an empty one, in [MalformedClaims]; an accepted token whose
    subject is the email of no user record, in [UnknownSubject].  The
    four are different exceptions, and the store is not consulted before
    the token is accepted. *)
Theorem gate_failure_kinds (E : env) (s token : string) (w : world) :
  has_bearer_scheme (Some s) = true ->
  bearer_token s = Ret token ->
  (jwt_decode E token (JWT_SECRET E) (utcnow E (ticks w))
   = Raise ExpiredSignatureError ->
   get_current_user E (Some s) w = (Raise ExpiredToken, tick w))
  /\ (jwt_decode E token (JWT_SECRET E) (utcnow E (ticks w))
      = Raise InvalidTokenError ->
      get_current_user E (Some s) w = (Raise InvalidToken, tick w))
  /\ (forall payload,
        jwt_decode E token (JWT_SECRET E) (utcnow E (ticks w)) = Ret payload ->
        payload !! "sub" = None \/ payload !! "sub" = Some (VStr "") ->
        get_current_user E (Some s) w = (Raise MalformedClaims, tick w))
  /\ (forall payload email,
        jwt_decode E token (JWT_SECRET E) (utcnow E (ticks w)) = Ret payload ->
        payload !! "sub" = Some (VStr email) -> email <> "" ->
        users_with w email = [] ->
        get_current_user E (Some s) w = (Raise UnknownSubject, tick w))
  /\ NoDup [ExpiredToken; InvalidToken; MalformedClaims; UnknownSubject;
            MissingCredential].
Proof.
  intros Hs Htok. rewrite (get_current_user_run E s w Hs), Htok.
  split; [|split; [|split; [|split]]].
  - now intros ->.
  - now intros ->.
  - intros payload -> Hsub. unfold get, get_default.
    destruct Hsub as [-> | ->]; reflexivity.
  - intros payload email -> Hsub Hne Hnone. unfold get, get_default.
    rewrite Hsub. simpl default.
    replace (truthy (VStr email)) with true
      by (destruct email; [congruence | reflexivity]).
    change (Store.find_any E w "user" [("email", VStr email)])
      with (users_with w email).
    now rewrite Hnone.
  - apply (bool_decide_unpack _). vm_compute. exact I.
Qed.

Lemma gate_failure_kinds_witness :
  get_current_user Sample.E (Some "Bearer forged") empty_world
  = (Raise InvalidToken, tick empty_world)
  /\ get_current_user Sample.E (Some "Bearer tok.carol@example.com")
       empty_world
     = (Raise UnknownSubject, tick empty_world)
  /\ get_current_user Sample.E (Some "Bearer tok.") empty_world
     = (Raise MalformedClaims, tick empty_world).
Proof.
  split; [|split].
  - exact (proj1 (proj2 (gate_failure_kinds Sample.E "Bearer forged" "forged"
                           empty_world eq_refl eq_refl)) eq_refl).
  - exact (proj1 (proj2 (proj2 (proj2 (gate_failure_kinds Sample.E
             "Bearer tok.carol@example.com" "tok.carol@example.com"
             empty_world eq_refl eq_refl))))
             (<["sub" := VStr "carol@example.com"]> ∅) "carol@example.com"
             eq_refl eq_refl ltac:(discriminate) eq_refl).
  - exact (proj1 (proj2 (proj2 (gate_failure_kinds Sample.E
             "Bearer tok." "tok." empty_world eq_refl eq_refl)))
             (<["sub" := VStr ""]> ∅) eq_refl (or_intror eq_refl)).
Defined.

(** ** What registration stores *)

(** X27: A registration that succeeds adds one user record that holds the
    email, the name and the tax id of the form and, as the password
    hash, what the hash function returned: these four fields and the two
    time stamps and no other, so never the password under a field of
    its own.  When the hash function fails instead, no record is
    written. *)
Theorem register_stores_hash_only (E : env) (form : UserRegister)
  (w : world) :
  users_with w (reg_email form) = [] ->
  (forall h,
     bcrypt_hash E (reg_password form) (salts E (draws w)) = Ret h ->
     exists u,
       Store.collection (after_register E form w) "user"
       = (Store.collection w "user" ++ [u])%list
       /\ doc_fields u !! "email" = Some (VStr (reg_email form))
       /\ doc_fields u !! "name" = Some (VStr (reg_name form))
       /\ doc_fields u !! "pan" = Some (VStr (reg_pan form))
       /\ doc_fields u !! "password_hash" = Some (VStr h)
       /\ dom (doc_fields u)
          = ({[ "email"; "name"; "pan"; "password_hash";
                "created_at"; "updated_at" ]} : gset string))
  /\ (forall e,
        bcrypt_hash E (reg_password form) (salts E (draws w)) = Raise e ->
        register E form w = (Raise e, drawn w)
        /\ db (drawn w) = db w).
Proof.
  intros Hfresh. split.
  - intros h Hhash.
    exists {| doc_id := next_id w;
              doc_fields := stamped E (drawn w) (user_doc form h) |}.
    unfold after_register. rewrite (register_fresh E form w h Hfresh Hhash).
    simpl. split; [now rewrite collection_inserted|].
    repeat split; reflexivity.
  - intros e Hhash. split; [now apply register_hash_fails | reflexivity].
Qed.

Lemma register_stores_hash_only_witness :
  exists u,
    Store.collection (after_register Sample.E Sample.alice_form empty_world)
      "user"
    = (Store.collection empty_world "user" ++ [u])%list
    /\ doc_fields u !! "email" = Some (VStr "alice@example.com")
    /\ doc_fields u !! "name" = Some (VStr "Alice")
    /\ doc_fields u !! "pan" = Some (VStr "ABCDE1234F")
    /\ doc_fields u !! "password_hash" = Some (VStr "$2b$12$c2FsdA$s3cret")
    /\ dom (doc_fields u)
       = ({[ "email"; "name"; "pan"; "password_hash";
             "created_at"; "updated_at" ]} : gset string).
Proof.
  exact (proj1 (register_stores_hash_only Sample.E Sample.alice_form
                  empty_world eq_refl)
           "$2b$12$c2FsdA$s3cret" eq_refl).
Defined.
